(** * Diagnostic scripts of video-annotation-viewer: a shallow embedding

    The development follows the three scripts that carry decision logic:

    - [scripts/check_openapi.py]: grouping of the OpenAPI paths
      (module [OpenApi]);
    - [scripts/test_api_quick.py]: the [APIQuickTester] suite
      (module [QuickTest]);
    - [scripts/diagnose_failed_jobs.py]: the failed-job diagnostics
      (module [Diagnose]).

    The server is the environment: every HTTP call of a script is answered
    by a field of a world record, so that a run is a function of the world.
    Python values decoded from JSON are the type [json]; Python exceptions
    are the error side of the monad [res]. *)

From Stdlib Require Import ZArith List String Ascii Bool Lia.
From Stdlib Require Import Permutation Orders Sorted Mergesort DecimalString.
Import ListNotations.
Local Open Scope string_scope.
Local Open Scope list_scope.
Set Warnings "-register-all".

(** ** Python values, exceptions and formatted text *)

Module Py.

(** A value decoded by [response.json()]. [JNull] is Python's [None];
    numbers are the integers (a status code, a count). A [dict] is kept as
    the list of its bindings, a key being looked up from the front. *)
Inductive json : Type :=
| JNull
| JBool (b : bool)
| JNum (n : Z)
| JStr (s : string)
| JArr (l : list json)
| JObj (m : list (string * json)).

(** The exceptions the scripts can meet. [Timeout] is
    [requests.exceptions.Timeout]; [RequestException] any other failure of
    the HTTP call; [HTTPError] is raised by [raise_for_status];
    the last three come from the interpreter when a decoded value has not
    the shape the script reads. *)
Inductive exn : Type :=
| Timeout (msg : string)
| RequestException (msg : string)
| HTTPError (status : Z)
| JSONDecodeError
| AttributeError
| TypeError.

(** Result of a computation that may raise. *)
Inductive res (A : Type) : Type :=
| Ok (a : A)
| Raise (e : exn).
Arguments Ok {A} a.
Arguments Raise {A} e.

Definition bind {A B : Type} (c : res A) (k : A -> res B) : res B :=
  match c with
  | Ok a => k a
  | Raise e => Raise e
  end.

Notation "x <- c ;; k" := (bind c (fun x => k))
  (at level 61, c at next level, right associativity).
Notation "' p <- c ;; k" := (bind c (fun p => k))
  (at level 61, p pattern, c at next level, right associativity).

Fixpoint mapM {A B : Type} (f : A -> res B) (l : list A) : res (list B) :=
  match l with
  | [] => Ok []
  | a :: l' => b <- f a ;; bs <- mapM f l' ;; Ok (b :: bs)
  end.

(** [[x for x in l if p(x)]] where the test itself may raise. *)
Fixpoint filterM {A : Type} (p : A -> res bool) (l : list A) : res (list A) :=
  match l with
  | [] => Ok []
  | a :: l' =>
      b <- p a ;; rest <- filterM p l' ;; Ok (if b then a :: rest else rest)
  end.

(** Truth value of a Python object in [if v:], [not v], [a or b]. *)
Definition truthy (v : json) : bool :=
  match v with
  | JNull => false
  | JBool b => b
  | JNum n => negb (n =? 0)%Z
  | JStr s => match s with EmptyString => false | String _ _ => true end
  | JArr l => match l with [] => false | _ :: _ => true end
  | JObj m => match m with [] => false | _ :: _ => true end
  end.

Fixpoint lookup (k : string) (m : list (string * json)) : option json :=
  match m with
  | [] => None
  | (k', v) :: m' => if String.eqb k k' then Some v else lookup k m'
  end.

Definition is_dict (v : json) : bool :=
  match v with
  | JObj _ => true
  | _ => false
  end.

(** The value [d.get(k, default)] has when [d] is a dict. *)
Definition field (v : json) (k : string) (default : json) : json :=
  match v with
  | JObj m => match lookup k m with Some x => x | None => default end
  | _ => default
  end.

(** [d.get(k, default)]: an [AttributeError] when [d] is no dict. *)
Definition py_get (d : json) (k : string) (default : json) : res json :=
  match d with
  | JObj m => Ok (match lookup k m with Some v => v | None => default end)
  | _ => Raise AttributeError
  end.

(** [len(v)]. *)
Definition py_len (v : json) : res nat :=
  match v with
  | JStr s => Ok (String.length s)
  | JArr l => Ok (List.length l)
  | JObj m => Ok (List.length m)
  | _ => Raise TypeError
  end.

Fixpoint chars (s : string) : list json :=
  match s with
  | EmptyString => []
  | String c s' => JStr (String c EmptyString) :: chars s'
  end.

(** The items [for x in v] walks through: the elements of a list, the
    characters of a string, the keys of a dict. *)
Definition py_iter (v : json) : res (list json) :=
  match v with
  | JArr l => Ok l
  | JStr s => Ok (chars s)
  | JObj m => Ok (map (fun kv => JStr (fst kv)) m)
  | _ => Raise TypeError
  end.

(** [v[:n]], already as the items a loop over it sees. Slicing a dict
    raises (a [TypeError], a [KeyError] from Python 3.12 on). *)
Definition py_slice_to (n : nat) (v : json) : res (list json) :=
  match v with
  | JArr l => Ok (firstn n l)
  | JStr s => Ok (firstn n (chars s))
  | _ => Raise TypeError
  end.

Definition as_str (v : json) : res string :=
  match v with
  | JStr s => Ok s
  | _ => Raise TypeError
  end.

(** [sep.join(items)]: every item has to be a [str]. *)
Definition py_join (sep : string) (items : list json) : res string :=
  strs <- mapM as_str items ;; Ok (String.concat sep strs).

(** [v in [s1, s2, ...]] for a list of string literals. *)
Definition py_in (v : json) (l : list string) : bool :=
  match v with
  | JStr s => existsb (String.eqb s) l
  | _ => false
  end.

(** [needle in hay] on strings: substring containment. *)
Fixpoint contains (needle hay : string) : bool :=
  String.prefix needle hay
  || match hay with
     | EmptyString => false
     | String _ rest => contains needle rest
     end.

(** An f-string is kept as the sequence of its parts: literal text, an
    interpolated integer, an interpolated decoded value, an interpolated
    exception. How [str()] prints the last two is left to the interpreter;
    [render] flattens a text once that is given. *)
Inductive piece : Type :=
| Txt (s : string)
| Int (n : Z)
| Val (v : json)
| Err (e : exn).

Definition text := list piece.

Definition decimal (n : Z) : string :=
  DecimalString.NilZero.string_of_int (Z.to_int n).

Definition render_piece (str_json : json -> string) (str_exn : exn -> string)
    (p : piece) : string :=
  match p with
  | Txt s => s
  | Int n => decimal n
  | Val v => str_json v
  | Err e => str_exn e
  end.

Definition render (str_json : json -> string) (str_exn : exn -> string)
    (t : text) : string :=
  String.concat "" (map (render_piece str_json str_exn) t).

(** What a script gets back from [requests]: an exception, or a response
    with its status code and its body, [None] when the body is not JSON. *)
Inductive http_result : Type :=
| Raised (e : exn)
| Response (status_code : Z) (body : option json).

Record response := { status_code : Z; body : option json }.

Definition call (r : http_result) : res response :=
  match r with
  | Raised e => Raise e
  | Response st b => Ok {| status_code := st; body := b |}
  end.

(** [resp.json()]. *)
Definition resp_json (resp : response) : res json :=
  match body resp with
  | Some v => Ok v
  | None => Raise JSONDecodeError
  end.

(** [resp.raise_for_status()] of [requests]: an [HTTPError] for a client
    error (4xx) or a server error (5xx), nothing otherwise. *)
Definition raise_for_status (resp : response) : res unit :=
  if ((400 <=? status_code resp) && (status_code resp <? 600))%Z
  then Raise (HTTPError (status_code resp))
  else Ok tt.

(** [status in [c1, c2, ...]] for a list of integer literals. *)
Definition in_codes (status : Z) (codes : list Z) : bool :=
  existsb (Z.eqb status) codes.

(** A Python [str] is the sequence of its code points; a [bytes] object
    is the sequence of its bytes. [literal] is the [str] of a literal
    written in ASCII. *)
Definition pystr : Type := list N.
Definition pybytes : Type := list Byte.byte.

Definition literal (s : string) : pystr :=
  map N_of_ascii (list_ascii_of_string s).

(** The UTF-8 bytes of a code point, and of a [str]: what a [str] placed
    in a formatted text is printed as. *)
Definition utf8 (c : N) : list ascii :=
  (if c <? 128 then [ascii_of_N c]
   else if c <? 2048 then
     [ascii_of_N (192 + c / 64); ascii_of_N (128 + c mod 64)]
   else if c <? 65536 then
     [ascii_of_N (224 + c / 4096); ascii_of_N (128 + (c / 64) mod 64);
      ascii_of_N (128 + c mod 64)]
   else
     [ascii_of_N (240 + c / 262144); ascii_of_N (128 + (c / 4096) mod 64);
      ascii_of_N (128 + (c / 64) mod 64); ascii_of_N (128 + c mod 64)])%N.

Definition encode (s : pystr) : string :=
  string_of_list_ascii (flat_map utf8 s).

(** The truth value of a [str] or of a [bytes]: it is not empty. *)
Definition nonempty {A : Type} (l : list A) : bool :=
  match l with
  | [] => false
  | _ :: _ => true
  end.

(** [s[n:]] and [s[:n]]: code points are dropped and kept, not bytes. *)
Definition str_drop (n : nat) (s : pystr) : pystr := skipn n s.

Definition str_take (n : nat) (s : pystr) : pystr := firstn n s.

(** [s.startswith(prefix)]. *)
Fixpoint startswith (s prefix : pystr) : bool :=
  match prefix, s with
  | [], _ => true
  | _ :: _, [] => false
  | a :: prefix', b :: s' => (a =? b)%N && startswith s' prefix'
  end.

(** The white space of [str.strip()]: U+0009 to U+000D, U+001C to U+0020,
    U+0085, U+00A0, U+1680, U+2000 to U+200A, U+2028, U+2029, U+202F,
    U+205F and U+3000. *)
Definition is_space (c : N) : bool :=
  ((9 <=? c) && (c <=? 13) || (28 <=? c) && (c <=? 32)
   || (c =? 133) || (c =? 160) || (c =? 5760)
   || (8192 <=? c) && (c <=? 8202)
   || (c =? 8232) || (c =? 8233) || (c =? 8239) || (c =? 8287)
   || (c =? 12288))%N.

Fixpoint lstrip_chars (l : pystr) : pystr :=
  match l with
  | [] => []
  | c :: l' => if is_space c then lstrip_chars l' else l
  end.

(** [s.strip()]. *)
Definition str_strip (s : pystr) : pystr :=
  rev (lstrip_chars (rev (lstrip_chars s))).

End Py.
Import Py.

(** ** check_openapi.py: grouping the paths of the OpenAPI document *)

Module StringOrder <: TotalLeBool.
Definition t := string.
Definition leb := String.leb.
Definition leb_total := String.leb_total.
End StringOrder.

Module StringSort := Sort StringOrder.

Module OpenApi.

Record groups := {
  system_endpoints : list string;
  pipeline_endpoints : list string;
  job_endpoints : list string;
  debug_endpoints : list string;
  other_endpoints : list string
}.

Definition empty_groups : groups :=
  {| system_endpoints := []; pipeline_endpoints := []; job_endpoints := [];
     debug_endpoints := []; other_endpoints := [] |}.

(** One turn of the loop [for path in sorted(paths.keys())]. *)
Definition classify_step (g : groups) (path : string) : groups :=
  if contains "/system/" path then
    {| system_endpoints := system_endpoints g ++ [path];
       pipeline_endpoints := pipeline_endpoints g;
       job_endpoints := job_endpoints g;
       debug_endpoints := debug_endpoints g;
       other_endpoints := other_endpoints g |}
  else if contains "/pipeline" path then
    {| system_endpoints := system_endpoints g;
       pipeline_endpoints := pipeline_endpoints g ++ [path];
       job_endpoints := job_endpoints g;
       debug_endpoints := debug_endpoints g;
       other_endpoints := other_endpoints g |}
  else if contains "/job" path then
    {| system_endpoints := system_endpoints g;
       pipeline_endpoints := pipeline_endpoints g;
       job_endpoints := job_endpoints g ++ [path];
       debug_endpoints := debug_endpoints g;
       other_endpoints := other_endpoints g |}
  else if contains "/debug/" path then
    {| system_endpoints := system_endpoints g;
       pipeline_endpoints := pipeline_endpoints g;
       job_endpoints := job_endpoints g;
       debug_endpoints := debug_endpoints g ++ [path];
       other_endpoints := other_endpoints g |}
  else
    {| system_endpoints := system_endpoints g;
       pipeline_endpoints := pipeline_endpoints g;
       job_endpoints := job_endpoints g;
       debug_endpoints := debug_endpoints g;
       other_endpoints := other_endpoints g ++ [path] |}.

(** The loop over a sequence of paths, from five empty lists. *)
Definition classify (paths : list string) : groups :=
  fold_left classify_step paths empty_groups.

(** [sorted(...)] on strings. *)
Definition sorted (l : list string) : list string := StringSort.sort l.

(** The script's grouping, from the keys of the document's [paths]. *)
Definition group_endpoints (keys : list string) : groups :=
  classify (sorted keys).

Inductive category := System | Pipeline | Job | Debug | Other.

Definition bucket (c : category) (g : groups) : list string :=
  match c with
  | System => system_endpoints g
  | Pipeline => pipeline_endpoints g
  | Job => job_endpoints g
  | Debug => debug_endpoints g
  | Other => other_endpoints g
  end.

Definition all_buckets (g : groups) : list string :=
  system_endpoints g ++ pipeline_endpoints g ++ job_endpoints g
  ++ debug_endpoints g ++ other_endpoints g.

(** The category the chain of tests gives a path: the first pattern found
    in it decides, in the order system, pipeline, job, debug. *)
Definition category_of (path : string) : category :=
  if contains "/system/" path then System
  else if contains "/pipeline" path then Pipeline
  else if contains "/job" path then Job
  else if contains "/debug/" path then Debug
  else Other.

Definition category_eqb (c d : category) : bool :=
  match c, d with
  | System, System | Pipeline, Pipeline | Job, Job
  | Debug, Debug | Other, Other => true
  | _, _ => false
  end.

Definition in_category (c : category) (path : string) : bool :=
  category_eqb (category_of path) c.

(** *** The rest of the script *)

(** The endpoints the client is known to ask for. *)
Definition client_expected : list string :=
  [ "/api/v1/system/info"; "/api/v1/system/server-info";
    "/api/v1/pipelines/catalog"; "/api/v1/pipelines/schema" ].

(** [paths.keys()]: an [AttributeError] when [paths] is no dict. A decoded
    dict binds a key once, so its keys are the keys of its bindings. *)
Definition py_keys (v : json) : res (list string) :=
  match v with
  | JObj m => Ok (map fst m)
  | _ => Raise AttributeError
  end.

(** [endpoint in paths], [paths] a dict with these keys. *)
Definition has_key (keys : list string) (endpoint : string) : bool :=
  existsb (String.eqb endpoint) keys.

(** [any(expected in endpoint for expected in ['/system/', '/pipeline'])]. *)
Definition system_or_pipeline (endpoint : string) : bool :=
  existsb (fun expected => contains expected endpoint)
    ["/system/"; "/pipeline"].

(** What a run on a 200 answer prints and saves: the five groups, the
    total [len(paths)], for each expected endpoint whether it EXISTS or is
    MISSING, the endpoints listed under "Server actually provides", and
    the document written to [server_actual_api_spec.json]. *)
Record analysis := {
  grouped : groups;
  total_endpoints : nat;
  expected_exists : list (string * bool);
  provided : list string;
  saved_spec : json
}.

(** How the script ends when no exception escapes it. *)
Inductive script_result : Type :=
| Analysed (a : analysis)
| CouldNotFetch (status : Z).

(** The script, from the answer to [GET /openapi.json]. Nothing in it is
    caught: [Raise] is an exception that ends the script. *)
Definition check_openapi (r : http_result) : res script_result :=
  response <- call r ;;
  if (status_code response =? 200)%Z then
    openapi_spec <- resp_json response ;;
    paths <- py_get openapi_spec "paths" (JObj []) ;;
    keys <- py_keys paths ;;
    Ok (Analysed
          {| grouped := group_endpoints keys;
             total_endpoints := List.length keys;
             expected_exists :=
               map (fun endpoint => (endpoint, has_key keys endpoint))
                 client_expected;
             provided := filter system_or_pipeline (sorted keys);
             saved_spec := openapi_spec |})
  else Ok (CouldNotFetch (status_code response)).

(** A small OpenAPI document. *)
Definition sample_spec : json :=
  JObj [("openapi", JStr "3.1.0");
        ("paths",
         JObj [("/health", JObj []);
               ("/api/v1/system/health", JObj []);
               ("/api/v1/pipelines", JObj []);
               ("/api/v1/pipelines/catalog", JObj []);
               ("/api/v1/jobs", JObj []);
               ("/api/v1/debug/pipelines", JObj []);
               ("/api/v1/debug/server-info", JObj [])])].

End OpenApi.

(** ** test_api_quick.py: the APIQuickTester suite *)

Module QuickTest.

(** One element of [results["details"]]; the time stamp is left out. *)
Record entry := { test : string; passed : bool; details : text }.

(** [self.results]. *)
Record results := {
  results_passed : nat;
  results_failed : nat;
  results_details : list entry
}.

(** [self.results] as [__init__] sets it. *)
Definition init_results : results :=
  {| results_passed := 0; results_failed := 0; results_details := [] |}.

Definition _log_result (test_name : string) (passed : bool) (details : text)
    (r : results) : results :=
  {| results_passed :=
       if passed then S (results_passed r) else results_passed r;
     results_failed :=
       if passed then results_failed r else S (results_failed r);
     results_details :=
       results_details r
       ++ [ {| test := test_name; passed := passed; details := details |} ] |}.

(** [try: ...; self._log_result(name, passed, details)
     except Exception as e: self._log_result(name, False, f"Exception: {e}")]:
    the body computes the arguments of the call that ends the [try] block;
    [verdict] is what gets logged, whether the body returned or raised. *)
Definition verdict (c : res (bool * text)) : bool * text :=
  match c with
  | Ok v => v
  | Raise e => (false, [Txt "Exception: "; Err e])
  end.

Definition attempt (test_name : string) (c : res (bool * text)) (r : results)
    : results :=
  let '(passed, details) := verdict c in
  _log_result test_name passed details r.

(** The lines of a streamed body, as [resp.iter_lines(decode_unicode=True)]
    yields them. [requests] decodes the body when the response has an
    encoding (a charset, or a text type, in its Content-Type) and the lines
    are [str]; a response with no encoding is not decoded, and the lines
    are [bytes]. The lines are those of [splitlines()], without their line
    ends; a blank line is an empty one. *)
Inductive stream_lines : Type :=
| Decoded (lines : list pystr)
| Undecoded (lines : list pybytes).

(** One line of the stream. *)
Inductive stream_line : Type :=
| StrLine (s : pystr)
| BytesLine (b : pybytes).

Definition iter_lines (body : stream_lines) : list stream_line :=
  match body with
  | Decoded lines => map StrLine lines
  | Undecoded lines => map BytesLine lines
  end.

(** The stream probe's answer: the call raised, or a response came whose
    lines are read one by one until the stream ends or breaks. *)
Inductive sse_result : Type :=
| SseRaised (e : exn)
| SseResponse (status : Z) (body : stream_lines) (broken : option exn).

(** The server, as the suite sees it: one answer per request it sends.
    [get_health] answers GET /health and [get_system_health]
    GET /api/v1/system/health; [get_jobs_auth] and [get_token_info] answer
    the two requests of [test_authentication] (GET /api/v1/jobs and
    GET /api/v1/debug/token-info); [get_pipelines] and
    [get_debug_pipelines] those of [test_pipelines]; [get_jobs],
    [post_job] and [get_job job_id] those of [test_job_endpoints];
    [get_missing] and [get_debug] the requests of the two loops, by
    endpoint; [get_stream] the streaming request. *)
Record world := {
  get_health : http_result;
  get_system_health : http_result;
  get_jobs_auth : http_result;
  get_token_info : http_result;
  get_pipelines : http_result;
  get_debug_pipelines : http_result;
  get_jobs : http_result;
  post_job : http_result;
  get_job : json -> http_result;
  get_missing : string -> http_result;
  get_debug : string -> http_result;
  get_stream : sse_result
}.

(** [f"Status: {resp.status_code}"]. *)
Definition status_text (resp : response) : text :=
  [Txt "Status: "; Int (status_code resp)].

(** *** test_health_endpoints *)

Definition basic_health_check (r : http_result) : res (bool * text) :=
  resp <- call r ;;
  let passed := (status_code resp =? 200)%Z in
  let details := status_text resp in
  if passed then
    data <- resp_json resp ;;
    st <- py_get data "status" (JStr "unknown") ;;
    Ok (passed, details ++ [Txt ", Server status: "; Val st])
  else Ok (passed, details).

Definition detailed_health_check (r : http_result) : res (bool * text) :=
  resp <- call r ;;
  let passed := (status_code resp =? 200)%Z in
  let details := status_text resp in
  if passed then
    data <- resp_json resp ;;
    services <- py_get data "services" (JObj []) ;;
    database <- py_get services "database" (JObj []) ;;
    db_status <- py_get database "status" (JStr "unknown") ;;
    Ok (passed, details ++ [Txt ", DB status: "; Val db_status])
  else Ok (passed, details).

Definition test_health_endpoints (w : world) (r : results) : results :=
  let r := attempt "Basic Health Check" (basic_health_check (get_health w)) r in
  attempt "Detailed Health Check"
    (detailed_health_check (get_system_health w)) r.

(** *** test_authentication *)

Definition authentication_test (r : http_result) : res (bool * text) :=
  resp <- call r ;;
  let passed := in_codes (status_code resp) [200; 401]%Z in
  let details := status_text resp in
  if (status_code resp =? 200)%Z then
    data <- resp_json resp ;;
    total <- py_get data "total" (JNum 0) ;;
    Ok (passed, details ++ [Txt ", Jobs accessible: "; Val total; Txt " jobs"])
  else if (status_code resp =? 401)%Z then
    Ok (passed, details ++ [Txt " (Authentication required - expected)"])
  else Ok (passed, details).

Definition token_debug_info (r : http_result) : res (bool * text) :=
  resp <- call r ;;
  if (status_code resp =? 200)%Z then
    data <- resp_json resp ;;
    token <- py_get data "token" (JObj []) ;;
    token_valid <- py_get token "valid" (JBool false) ;;
    token' <- py_get data "token" (JObj []) ;;
    permissions <- py_get token' "permissions" (JArr []) ;;
    n <- py_len permissions ;;
    Ok (true, [Txt "Token valid: "; Val token_valid;
               Txt ", Permissions: "; Int (Z.of_nat n)])
  else if (status_code resp =? 404)%Z then
    Ok (true, [Txt "Endpoint not implemented yet (expected)"])
  else Ok (false, status_text resp).

Definition test_authentication (w : world) (r : results) : results :=
  let r := attempt "Authentication Test"
             (authentication_test (get_jobs_auth w)) r in
  attempt "Token Debug Info" (token_debug_info (get_token_info w)) r.

(** *** test_pipelines *)

Definition pipeline_list (r : http_result) : res (bool * text) :=
  resp <- call r ;;
  let passed := (status_code resp =? 200)%Z in
  let details := status_text resp in
  if passed then
    data <- resp_json resp ;;
    pipelines <- py_get data "pipelines" (JArr []) ;;
    n <- py_len pipelines ;;
    let details :=
      details ++ [Txt ", Available: "; Int (Z.of_nat n); Txt " pipelines"] in
    if truthy pipelines then
      first3 <- py_slice_to 3 pipelines ;;
      pipeline_names <-
        mapM (fun p => py_get p "name" (JStr "unknown")) first3 ;;
      joined <- py_join ", " pipeline_names ;;
      Ok (passed, details ++ [Txt " ("; Txt joined; Txt ")"])
    else Ok (passed, details)
  else Ok (passed, details).

Definition pipeline_debug_info (r : http_result) : res (bool * text) :=
  resp <- call r ;;
  if (status_code resp =? 200)%Z then
    data <- resp_json resp ;;
    pipelines <- py_get data "pipelines" (JArr []) ;;
    n <- py_len pipelines ;;
    Ok (true, [Txt "Debug info available for "; Int (Z.of_nat n);
               Txt " pipelines"])
  else if (status_code resp =? 404)%Z then
    Ok (true, [Txt "Debug endpoint not implemented yet (expected)"])
  else Ok (false, status_text resp).

Definition test_pipelines (w : world) (r : results) : results :=
  let r := attempt "Pipeline List" (pipeline_list (get_pipelines w)) r in
  attempt "Pipeline Debug Info"
    (pipeline_debug_info (get_debug_pipelines w)) r.

(** *** test_job_endpoints *)

Definition job_list (r : http_result) : res (bool * text) :=
  resp <- call r ;;
  let passed := in_codes (status_code resp) [200; 401]%Z in
  let details := status_text resp in
  if (status_code resp =? 200)%Z then
    data <- resp_json resp ;;
    total <- py_get data "total" (JNum 0) ;;
    Ok (passed, details ++ [Txt ", Total jobs: "; Val total])
  else Ok (passed, details).

(** The submission also yields [job_id], [None] unless a 201 answer has a
    body the id can be read from. *)
Definition job_submission (r : http_result) : res (bool * text * json) :=
  resp <- call r ;;
  let passed := in_codes (status_code resp) [201; 401; 422]%Z in
  let details := status_text resp in
  if (status_code resp =? 201)%Z then
    job_data <- resp_json resp ;;
    job_id <- py_get job_data "id" JNull ;;
    Ok (passed, details ++ [Txt ", Job ID: "; Val job_id], job_id)
  else if (status_code resp =? 401)%Z then
    Ok (passed, details ++ [Txt " (Authentication required)"], JNull)
  else if (status_code resp =? 422)%Z then
    Ok (passed,
        details ++ [Txt " (Validation error - expected for mock data)"],
        JNull)
  else Ok (passed, details, JNull).

Definition job_status_retrieval (r : http_result) : res (bool * text) :=
  resp <- call r ;;
  let passed := (status_code resp =? 200)%Z in
  let details := status_text resp in
  if passed then
    job_data <- resp_json resp ;;
    st <- py_get job_data "status" (JStr "unknown") ;;
    Ok (passed, details ++ [Txt ", Job status: "; Val st])
  else Ok (passed, details).

(** What the submission step ends with: [job_id] stays [None] when the
    [try] block raises. *)
Definition submission_outcome (c : res (bool * text * json))
    : bool * text * json :=
  match c with
  | Ok v => v
  | Raise e => (false, [Txt "Exception: "; Err e], JNull)
  end.

(** Returns [job_id] with the results. *)
Definition test_job_endpoints (w : world) (r : results) : json * results :=
  let r := attempt "Job List" (job_list (get_jobs w)) r in
  let '(passed, details, job_id) :=
    submission_outcome (job_submission (post_job w)) in
  let r := _log_result "Job Submission" passed details r in
  let r :=
    if truthy job_id then
      attempt "Job Status Retrieval"
        (job_status_retrieval (get_job w job_id)) r
    else r in
  (job_id, r).

(** *** test_missing_endpoints *)

Definition missing_endpoints : list (string * string) :=
  [ ("/api/v1/events/stream", "SSE Endpoint");
    ("/api/v1/jobs/123/results", "Job Results Download");
    ("/api/v1/jobs/123/artifacts", "Job Artifacts");
    ("/api/v1/videos", "Video Upload") ].

Definition missing_endpoint (r : http_result) : res (bool * text) :=
  resp <- call r ;;
  let expected_404 := (status_code resp =? 404)%Z in
  let details := status_text resp in
  let details :=
    if negb expected_404 then details ++ [Txt " (Unexpectedly implemented!)"]
    else details ++ [Txt " (Missing as expected)"] in
  Ok (true, details).

Definition test_missing_endpoints (w : world) (r : results) : results :=
  fold_left
    (fun r '(endpoint, name) =>
       attempt (name ++ " Endpoint") (missing_endpoint (get_missing w endpoint)) r)
    missing_endpoints r.

(** *** test_debug_endpoints *)

Definition debug_endpoints : list (string * string) :=
  [ ("/api/v1/debug/server-info", "Server Info");
    ("/api/v1/debug/token-info", "Token Info");
    ("/api/v1/debug/pipelines", "Pipeline Debug");
    ("/api/v1/debug/request-log", "Request Log") ].

Definition debug_endpoint (r : http_result) : res (bool * text) :=
  resp <- call r ;;
  let details :=
    if (status_code resp =? 200)%Z then [Txt "Debug endpoint working"]
    else if (status_code resp =? 404)%Z then
      [Txt "Not implemented yet (expected)"]
    else if (status_code resp =? 401)%Z then [Txt "Authentication required"]
    else status_text resp in
  let passed := in_codes (status_code resp) [200; 404; 401]%Z in
  Ok (passed, details).

Definition test_debug_endpoints (w : world) (r : results) : results :=
  fold_left
    (fun r '(endpoint, name) =>
       attempt (name ++ " Debug") (debug_endpoint (get_debug w endpoint)) r)
    debug_endpoints r.

(** *** test_sse_connection *)

(** [for line in resp.iter_lines(...)] with its [else]: the first line
    that is not empty and starts with [data:] ends the loop with a pass;
    a stream that ends without one is a fail; a stream that breaks raises.
    An empty line is skipped, be it [str] or [bytes]; on a [bytes] line
    that is not empty, [line.startswith('data:')] is called with a [str]
    and raises a [TypeError]. *)
Fixpoint read_events (lines : list stream_line) (broken : option exn)
    : res (bool * text) :=
  match lines with
  | [] =>
      match broken with
      | Some e => Raise e
      | None => Ok (false, [Txt "No events received"])
      end
  | StrLine line :: rest =>
      if nonempty line && startswith line (literal "data:") then
        let event_data := str_strip (str_drop 5 line) in
        Ok (true, [Txt "Received SSE event: ";
                   Txt (encode (str_take 50 event_data)); Txt "..."])
      else read_events rest broken
  | BytesLine line :: rest =>
      if nonempty line then Raise TypeError
      else read_events rest broken
  end.

Definition sse_connection (o : sse_result) : bool * text :=
  match o with
  | SseRaised (Timeout _) =>
      (true, [Txt "Connection timeout (expected if not implemented)"])
  | SseRaised e => (false, [Txt "Exception: "; Err e])
  | SseResponse status body broken =>
      if (status =? 200)%Z then
        match read_events (iter_lines body) broken with
        | Ok v => v
        | Raise e => (false, [Txt "Stream error: "; Err e])
        end
      else if (status =? 404)%Z then
        (true, [Txt "SSE endpoint not implemented yet (expected)"])
      else (false, [Txt "Status: "; Int status])
  end.

Definition test_sse_connection (w : world) (r : results) : results :=
  let '(passed, details) := sse_connection (get_stream w) in
  _log_result "SSE Connection" passed details r.

(** *** run_all_tests and main *)

Definition run_all_tests (w : world) : results :=
  let r := test_health_endpoints w init_results in
  let r := test_authentication w r in
  let r := test_pipelines w r in
  let '(job_id, r) := test_job_endpoints w r in
  let r := test_missing_endpoints w r in
  let r := test_debug_endpoints w r in
  test_sse_connection w r.

Definition total_tests (r : results) : nat :=
  results_passed r + results_failed r.

(** The exit code of [main]. *)
Definition exit_code (r : results) : Z :=
  if (0 <? results_failed r)%nat then 1%Z else 0%Z.

(** The states a run goes through: the initial one, and any state reached
    by one more call of [_log_result]. *)
Inductive reachable : results -> Prop :=
| reach_init : reachable init_results
| reach_log r name passed details :
    reachable r -> reachable (_log_result name passed details r).





(** A decoded line the stream loop stops at. *)
Definition is_data_line (line : pystr) : bool :=
  nonempty line && startswith line (literal "data:").

(** The counts agree with the list of recorded verdicts. *)
Definition consistent (r : results) : Prop :=
  results_passed r + results_failed r = List.length (results_details r).

(** Two servers to run the suite against: one that refuses every
    connection, and one that answers every request as the API documents,
    the endpoints that are not implemented with 404. *)
Definition refused : http_result :=
  Raised (RequestException "Connection refused").

Definition offline_world : world :=
  {| get_health := refused; get_system_health := refused;
     get_jobs_auth := refused; get_token_info := refused;
     get_pipelines := refused; get_debug_pipelines := refused;
     get_jobs := refused; post_job := refused;
     get_job := fun _ => refused;
     get_missing := fun _ => refused;
     get_debug := fun _ => refused;
     get_stream := SseRaised (Timeout "timed out") |}.

Definition ok (fields : list (string * json)) : http_result :=
  Response 200 (Some (JObj fields)).

Definition not_found : http_result := Response 404 None.

Definition live_world : world :=
  {| get_health := ok [("status", JStr "healthy")];
     get_system_health :=
       ok [("status", JStr "healthy");
           ("services", JObj [("database", JObj [("status", JStr "up")])])];
     get_jobs_auth := ok [("total", JNum 2); ("jobs", JArr [])];
     get_token_info := not_found;
     get_pipelines :=
       ok [("pipelines", JArr [JObj [("name", JStr "person_tracking")]])];
     get_debug_pipelines := not_found;
     get_jobs := ok [("total", JNum 2); ("jobs", JArr [])];
     post_job :=
       Response 201
         (Some (JObj [("id", JStr "job-1"); ("status", JStr "pending")]));
     get_job := fun _ => ok [("id", JStr "job-1"); ("status", JStr "pending")];
     get_missing := fun _ => not_found;
     get_debug := fun _ => not_found;
     get_stream := SseResponse 404 (Decoded []) None |}.

(** A server that answers 500 to the missing-endpoint requests. *)
Definition erroring_world : world :=
  {| get_health := get_health live_world;
     get_system_health := get_system_health live_world;
     get_jobs_auth := get_jobs_auth live_world;
     get_token_info := get_token_info live_world;
     get_pipelines := get_pipelines live_world;
     get_debug_pipelines := get_debug_pipelines live_world;
     get_jobs := get_jobs live_world;
     post_job := post_job live_world;
     get_job := get_job live_world;
     get_missing := fun _ => Response 500 None;
     get_debug := get_debug live_world;
     get_stream := get_stream live_world |}.

(** *** More of the suite *)

(** [main]: the exit code of the process, after a run. *)
Definition main (w : world) : Z := exit_code (run_all_tests w).




(** A verdict recorded as passed, as failed. *)
Definition is_pass (e : entry) : bool := passed e.

Definition is_fail (e : entry) : bool := negb (passed e).

(** The names of the tests of a run, in its order, but for the status
    retrieval. *)
Definition names_before_retrieval : list string :=
  ["Basic Health Check"; "Detailed Health Check"; "Authentication Test";
   "Token Debug Info"; "Pipeline List"; "Pipeline Debug Info";
   "Job List"; "Job Submission"].

Definition names_after_retrieval : list string :=
  ["SSE Endpoint Endpoint"; "Job Results Download Endpoint";
   "Job Artifacts Endpoint"; "Video Upload Endpoint";
   "Server Info Debug"; "Token Info Debug"; "Pipeline Debug Debug";
   "Request Log Debug"; "SSE Connection"].

(** The detail logged for the event read from a data line. *)
Definition event_detail (line : pystr) : text :=
  [Txt "Received SSE event: ";
   Txt (encode (str_take 50 (str_strip (str_drop 5 line)))); Txt "..."].

End QuickTest.

(** ** diagnose_failed_jobs.py: the failed-job diagnostics *)

Module Diagnose.

Definition API_BASE : string := "http://localhost:18011".

(** The server, as the script sees it. The detail request of the [i]-th
    failed job (counted from 1, as [enumerate] does) is answered by
    [get_job i job_id]. *)
Record world := {
  get_health : http_result;
  get_jobs : http_result;
  get_job : nat -> json -> http_result
}.

(** The body shared by [get_all_jobs], [get_job_details] and
    [get_server_health]: the request, [raise_for_status], [json()]. *)
Definition fetch (r : http_result) : res json :=
  resp <- call r ;;
  _ <- raise_for_status resp ;;
  resp_json resp.

(** [except Exception: ...; return None]. *)
Definition or_none (c : res json) : json :=
  match c with
  | Ok v => v
  | Raise _ => JNull
  end.

Definition get_server_health (w : world) : json := or_none (fetch (get_health w)).

Definition get_all_jobs (w : world) : json := or_none (fetch (get_jobs w)).

(** [get_job_details] also prints a line when the request fails; it
    returns the detail document with the lines printed. *)
Definition get_job_details (w : world) (i : nat) (job_id : json)
    : json * list text :=
  match fetch (get_job w i job_id) with
  | Ok v => (v, [])
  | Raise e =>
      (JNull, [[Txt "❌ Error fetching job "; Val job_id; Txt ": "; Err e]])
  end.

(** One element of [diagnostics["failed_jobs"]]. *)
Record job_info := {
  job_id : json;
  status : json;
  created_at : json;
  updated_at : json;
  video_filename : json;
  pipelines : json;
  error_message : json;
  details : json
}.

Record server_info := {
  server_url : string;
  server_version : json;
  server_status : json
}.

Record job_summary := {
  total_jobs : nat;
  completed : nat;
  pending : nat;
  failed : nat
}.

(** The document written to [OUTPUT_FILE]; the time stamp is left out. *)
Record diagnostics := {
  server : server_info;
  summary : job_summary;
  failed_jobs : list job_info
}.

(** How a run ends when no exception escapes: one of the three early
    [return]s, or the file written. [NoFailedJobs] and [Saved] come after
    the status summary was printed; [Saved] carries the lines printed for
    the failed jobs. *)
Inductive outcome : Type :=
| CannotConnect
| FailedToFetchJobs
| NoFailedJobs (printed : job_summary)
| Saved (d : diagnostics) (console : list text).

(** The test of [[job for job in jobs if job.get('status') in wanted]]. *)
Definition has_status (wanted : list string) (job : json) : res bool :=
  st <- py_get job "status" JNull ;; Ok (py_in st wanted).

(** [job.get('error_message') or details.get('error_message')
     if details else None]: the conditional binds weaker than [or]. *)
Definition resolve_error_message (job details : json) : res json :=
  if truthy details then
    m <- py_get job "error_message" JNull ;;
    if truthy m then Ok m else py_get details "error_message" JNull
  else Ok JNull.

(** One turn of the loop over the failed jobs: the record appended and the
    lines printed. *)
Definition failed_job (w : world) (n_failed i : nat) (job : json)
    : res (job_info * list text) :=
  id <- py_get job "id" JNull ;;
  st <- py_get job "status" JNull ;;
  created <- py_get job "created_at" (JStr "Unknown") ;;
  let out :=
    [ [];
      [Txt "🔸 Failed Job "; Int (Z.of_nat i); Txt "/";
       Int (Z.of_nat n_failed); Txt ": "; Val id];
      [Txt "   Status: "; Val st];
      [Txt "   Created: "; Val created] ] in
  let '(det, printed) := get_job_details w i id in
  let out := out ++ printed in
  st <- py_get job "status" JNull ;;
  created <- py_get job "created_at" JNull ;;
  updated <- py_get job "updated_at" JNull ;;
  filename <- py_get job "video_filename" JNull ;;
  pipes <- py_get job "pipelines" (JArr []) ;;
  message <- resolve_error_message job det ;;
  let info :=
    {| job_id := id; status := st; created_at := created;
       updated_at := updated; video_filename := filename;
       pipelines := pipes; error_message := message; details := det |} in
  out <-
    (if truthy (pipelines info) then
       items <- py_iter (pipelines info) ;;
       joined <- py_join ", " items ;;
       Ok (out ++ [[Txt "   Pipelines: "; Txt joined]])
     else Ok out) ;;
  let out :=
    if truthy (error_message info) then
      out ++ [[Txt "   ❌ Error: "; Val (error_message info)]]
    else out ++ [[Txt "   ⚠️  No error message available"]] in
  Ok (info, out).

(** [for i, job in enumerate(failed_jobs, 1)], from index [i] on. *)
Fixpoint analyze_loop (w : world) (n_failed i : nat) (jobs : list json)
    : res (list job_info * list text) :=
  match jobs with
  | [] => Ok ([], [])
  | job :: rest =>
      '(info, out) <- failed_job w n_failed i job ;;
      '(infos, outs) <- analyze_loop w n_failed (S i) rest ;;
      Ok (info :: infos, out ++ outs)
  end.

Definition FAILED : list string := ["failed"; "error"; "cancelled"].
Definition COMPLETED : list string := ["completed"].
Definition PENDING : list string := ["pending"; "processing"].

(** The main function. [Raise] is an exception that escapes it (the
    [__main__] block reports it); no file is written then. *)
Definition analyze_failed_jobs (w : world) : res outcome :=
  let health := get_server_health w in
  if truthy health then
    _ <- py_get health "version" (JStr "Unknown") ;;
    _ <- py_get health "status" (JStr "Unknown") ;;
    let jobs_response := get_all_jobs w in
    if negb (truthy jobs_response) then Ok FailedToFetchJobs
    else
      jobs <- py_get jobs_response "jobs" (JArr []) ;;
      total <- py_len jobs ;;
      items <- py_iter jobs ;;
      failed_jobs <- filterM (has_status FAILED) items ;;
      completed_jobs <- filterM (has_status COMPLETED) items ;;
      pending_jobs <- filterM (has_status PENDING) items ;;
      let counts :=
        {| total_jobs := total;
           completed := List.length completed_jobs;
           pending := List.length pending_jobs;
           failed := List.length failed_jobs |} in
      if negb (truthy (JArr failed_jobs)) then Ok (NoFailedJobs counts)
      else
        version <- py_get health "version" JNull ;;
        st <- py_get health "status" JNull ;;
        '(infos, console) <-
          analyze_loop w (List.length failed_jobs) 1 failed_jobs ;;
        Ok (Saved
              {| server := {| server_url := API_BASE;
                              server_version := version;
                              server_status := st |};
                 summary := counts;
                 failed_jobs := infos |}
              console)
  else Ok CannotConnect.

(** The content of [OUTPUT_FILE] a run leaves, if it writes the file. *)
Definition bundle_written (o : res outcome) : option diagnostics :=
  match o with
  | Ok (Saved d _) => Some d
  | _ => None
  end.

(** The status of a job of the collection, [None] when it has none. *)
Definition status_of (job : json) : json := field job "status" JNull.

Definition count_status (wanted : list string) (jobs : list json) : nat :=
  List.length (filter (fun job => py_in (status_of job) wanted) jobs).

(** The job collection the run iterates over. *)
Definition job_collection (w : world) : res (list json) :=
  jobs <- py_get (get_all_jobs w) "jobs" (JArr []) ;; py_iter jobs.

(** The statuses the script knows. *)
Definition KNOWN : list string := FAILED ++ COMPLETED ++ PENDING.

(** The jobs whose status is absent or none of the known ones. *)
Definition count_other (jobs : list json) : nat :=
  List.length (filter (fun job => negb (py_in (status_of job) KNOWN)) jobs).

(** The failed jobs of a collection, in its order. *)
Definition failing (jobs : list json) : list json :=
  filter (fun job => py_in (status_of job) FAILED) jobs.

(** The line printed for a failed job no message was resolved for. *)
Definition no_message_notice : text :=
  [Txt "   ⚠️  No error message available"].

(** Sample servers. *)
Definition ok (fields : list (string * json)) : http_result :=
  Response 200 (Some (JObj fields)).

Definition healthy : http_result :=
  ok [("status", JStr "healthy"); ("version", JStr "1.2.0")].

Definition job (id st : string) (more : list (string * json)) : json :=
  JObj (("id", JStr id) :: ("status", JStr st) :: more).

Definition jobs_page (jobs : list json) : http_result :=
  ok [("total", JNum (Z.of_nat (List.length jobs))); ("jobs", JArr jobs)].

(** Two completed jobs, a failed one with no message of its own whose
    detail says "OOM", and a pending one. *)
Definition sample_world : world :=
  {| get_health := healthy;
     get_jobs :=
       jobs_page [job "j1" "completed" []; job "j2" "completed" [];
                  job "j3" "failed" [("pipelines", JArr [JStr "person_tracking"])];
                  job "j4" "pending" []];
     get_job := fun _ id =>
       ok [("id", id); ("status", JStr "failed"); ("error_message", JStr "OOM")] |}.

(** A failed job with no message, in the list or in its detail. *)
Definition no_message_world : world :=
  {| get_health := healthy;
     get_jobs := jobs_page [job "j1" "failed" []];
     get_job := fun _ id => ok [("id", id); ("status", JStr "failed")] |}.

(** A failed job that has a message of its own, its detail request being
    answered 500. *)
Definition detail_down_world : world :=
  {| get_health := healthy;
     get_jobs :=
       jobs_page [job "j1" "failed" [("error_message", JStr "CUDA missing")]];
     get_job := fun _ _ => Response 500 None |}.

(** A collection with a job of an unknown status and one with none. *)
Definition unknown_status_world : world :=
  {| get_health := healthy;
     get_jobs :=
       jobs_page [job "j1" "completed" []; job "j2" "failed" [];
                  job "j3" "queued" []; JObj [("id", JStr "j4")]];
     get_job := fun _ id => ok [("id", id)] |}.

(** The health endpoint answers 500. *)
Definition server_error_world : world :=
  {| get_health := Response 500 None;
     get_jobs := get_jobs sample_world;
     get_job := get_job sample_world |}.

(** The health endpoint answers 300 with a readable body. *)
Definition multiple_choices_world : world :=
  {| get_health :=
       Response 300 (Some (JObj [("status", JStr "healthy")]));
     get_jobs := get_jobs sample_world;
     get_job := get_job sample_world |}.

(** A fetch fails when its [try] block raises. *)
Definition fetch_fails (r : http_result) : Prop :=
  exists e, fetch r = Raise e.

(** *** More of the diagnostics *)

(** [', '.join(v)] does not raise: [v] can be walked through and its
    items are strings. *)
Definition joinable (v : json) : bool :=
  match py_iter v with
  | Ok items =>
      forallb (fun item => match item with JStr _ => true | _ => false end)
        items
  | Raise _ => false
  end.

(** A record as it is when the detail request failed. *)
Definition without_details (info : job_info) : job_info :=
  {| job_id := job_id info; status := status info;
     created_at := created_at info; updated_at := updated_at info;
     video_filename := video_filename info; pipelines := pipelines info;
     error_message := JNull; details := JNull |}.

(** The header printed for the [i]-th of [n] failed jobs. *)
Definition job_header (i n : nat) (id : json) : text :=
  [Txt "🔸 Failed Job "; Int (Z.of_nat i); Txt "/"; Int (Z.of_nat n);
   Txt ": "; Val id].

(** The sample server with its detail endpoint down. *)
Definition sample_without_details : world :=
  {| get_health := get_health sample_world;
     get_jobs := get_jobs sample_world;
     get_job := fun _ _ => Response 503 None |}.

(** A failed job whose [pipelines] is a number. *)
Definition bad_pipelines_world : world :=
  {| get_health := healthy;
     get_jobs := jobs_page [job "j1" "failed" [("pipelines", JNum 3)]];
     get_job := fun _ id => ok [("id", id)] |}.

End Diagnose.

(** * Properties *)

(** ** The endpoint grouping *)

Module OpenApiSpec.
Import OpenApi.

Lemma category_eqb_eq c d : category_eqb c d = true <-> c = d.
Proof. destruct c, d; simpl; split; congruence. Qed.

(** A turn of the loop appends the path to the bucket of its category and
    leaves the four others as they were. *)
Lemma bucket_classify_step c g path :
  bucket c (classify_step g path)
  = bucket c g ++ (if in_category c path then [path] else []).
Proof.
  unfold classify_step, in_category, category_of.
  destruct (contains "/system/" path);
    [| destruct (contains "/pipeline" path);
       [| destruct (contains "/job" path);
          [| destruct (contains "/debug/" path)]]];
    destruct c; simpl; rewrite ?app_nil_r; reflexivity.
Qed.

Lemma bucket_fold c paths : forall g,
  bucket c (fold_left classify_step paths g)
  = bucket c g ++ filter (in_category c) paths.
Proof.
  induction paths as [|p paths IH]; intro g; simpl.
  - now rewrite app_nil_r.
  - rewrite IH, bucket_classify_step, <- app_assoc.
    destruct (in_category c p); reflexivity.
Qed.

(** Each bucket is the sub-sequence of the paths of its category, in the
    order of the input. *)
Lemma bucket_classify c paths :
  bucket c (classify paths) = filter (in_category c) paths.
Proof.
  unfold classify. rewrite bucket_fold. now destruct c.
Qed.

Lemma in_category_unique c d path :
  in_category c path = true -> in_category d path = true -> c = d.
Proof.
  unfold in_category. rewrite !category_eqb_eq. congruence.
Qed.

Lemma filters_partition (paths : list string) :
  Permutation
    (filter (in_category System) paths ++ filter (in_category Pipeline) paths
     ++ filter (in_category Job) paths ++ filter (in_category Debug) paths
     ++ filter (in_category Other) paths)
    paths.
Proof.
  unfold in_category.
  induction paths as [|p paths IH]; simpl; [constructor|].
  destruct (category_of p); simpl.
  - apply perm_skip, IH.
  - symmetry. apply Permutation_cons_app. now symmetry.
  - symmetry.
    rewrite app_assoc. apply Permutation_cons_app.
    rewrite <- app_assoc. now symmetry.
  - symmetry.
    rewrite 2!app_assoc. apply Permutation_cons_app.
    rewrite <- 2!app_assoc. now symmetry.
  - symmetry.
    rewrite 3!app_assoc. apply Permutation_cons_app.
    rewrite <- 3!app_assoc. now symmetry.
Qed.

Lemma all_buckets_classify paths :
  Permutation (all_buckets (classify paths)) paths.
Proof.
  unfold all_buckets.
  change (system_endpoints (classify paths)) with (bucket System (classify paths)).
  change (pipeline_endpoints (classify paths)) with (bucket Pipeline (classify paths)).
  change (job_endpoints (classify paths)) with (bucket Job (classify paths)).
  change (debug_endpoints (classify paths)) with (bucket Debug (classify paths)).
  change (other_endpoints (classify paths)) with (bucket Other (classify paths)).
  rewrite !bucket_classify. apply filters_partition.
Qed.

(** C7. For every sequence of path strings the five buckets of the
    grouping partition the input: together they are a rearrangement of the
    input (nothing lost, nothing duplicated), every input path is in one
    bucket and in one only, no bucket holds a path that was not given, the
    empty input gives five empty groups, and the same holds for the
    script's grouping of the sorted keys. The grouping is a total
    function: it has a result on every input. *)
Theorem classify_partitions_input : forall paths : list string,
  Permutation (all_buckets (classify paths)) paths
  /\ (forall p, In p paths -> exists! c, In p (bucket c (classify paths)))
  /\ (forall c p, In p (bucket c (classify paths)) -> In p paths)
  /\ classify [] = empty_groups
  /\ Permutation (all_buckets (group_endpoints paths)) paths.
Proof.
  intro paths. split; [apply all_buckets_classify|].
  split.
  - intros p Hp. exists (category_of p). split.
    + rewrite bucket_classify. apply filter_In. split; [assumption|].
      unfold in_category. now apply category_eqb_eq.
    + intros c Hc. rewrite bucket_classify in Hc.
      apply filter_In in Hc. destruct Hc as [_ Hc].
      unfold in_category in Hc. now apply category_eqb_eq in Hc.
  - split.
    + intros c p Hc. rewrite bucket_classify in Hc.
      now apply filter_In in Hc.
    + split; [reflexivity|].
      unfold group_endpoints, sorted.
      etransitivity; [apply all_buckets_classify|].
      symmetry. apply StringSort.Permuted_sort.
Qed.

Example classify_sample :
  group_endpoints
    ["/api/v1/system/health"; "/api/v1/jobs"; "/health";
     "/api/v1/pipelines"; "/api/v1/debug/pipelines"; "/api/v1/debug/jobs/1";
     "/api/v1/debug/server-info"]
  = {| system_endpoints := ["/api/v1/system/health"];
       pipeline_endpoints := ["/api/v1/debug/pipelines"; "/api/v1/pipelines"];
       job_endpoints := ["/api/v1/debug/jobs/1"; "/api/v1/jobs"];
       debug_endpoints := ["/api/v1/debug/server-info"];
       other_endpoints := ["/health"] |}.
Proof. vm_compute. reflexivity. Qed.

(** *** Substring containment *)

Lemma prefix_iff (s1 s2 : string) :
  String.prefix s1 s2 = true <-> exists post, s2 = (s1 ++ post)%string.
Proof.
  revert s2. induction s1 as [|c s1 IH]; intros s2.
  - destruct s2; cbn; split; eauto.
  - destruct s2 as [|c' s2]; cbn.
    + split; [discriminate | intros [post H]; discriminate].
    + destruct (Ascii.ascii_dec c c') as [->|Hc].
      * rewrite IH. split; intros [post H]; exists post.
        -- now rewrite H.
        -- now injection H.
      * split; [discriminate|]. intros [post H]. injection H as <- _.
        contradiction.
Qed.

(** X1. [needle in hay] holds exactly when [hay] is some text, then
    [needle], then some text. *)
Theorem contains_iff_substring : forall needle hay : string,
  contains needle hay = true
  <-> exists pre post, hay = (pre ++ needle ++ post)%string.
Proof.
  intros needle hay. induction hay as [|c hay IH]; cbn [contains].
  - rewrite orb_false_r, prefix_iff. split.
    + intros [post H]. now exists EmptyString, post.
    + intros (pre & post & H). destruct pre; [now exists post|discriminate].
  - rewrite orb_true_iff, prefix_iff, IH. split.
    + intros [[post H]|(pre & post & H)].
      * now exists EmptyString, post.
      * exists (String c pre), post. cbn. now rewrite H.
    + intros (pre & post & H). destruct pre as [|c' pre]; cbn in H.
      * left. now exists post.
      * right. injection H as _ H. now exists pre, post.
Qed.

(** *** The buckets, one by one *)

(** X2. First match wins: a path is in the system group when it contains
    "/system/"; in the pipeline group when it does not and contains
    "/pipeline"; in the job group when it contains neither and contains
    "/job"; in the debug group when it contains none of the three and
    contains "/debug/"; in the last group when it contains none of the
    four. So "/api/v1/debug/pipelines" is grouped with the pipelines. *)
Theorem bucket_membership : forall (paths : list string) (p : string),
  (In p (system_endpoints (classify paths))
   <-> In p paths /\ contains "/system/" p = true)
  /\ (In p (pipeline_endpoints (classify paths))
      <-> In p paths /\ contains "/system/" p = false
          /\ contains "/pipeline" p = true)
  /\ (In p (job_endpoints (classify paths))
      <-> In p paths /\ contains "/system/" p = false
          /\ contains "/pipeline" p = false /\ contains "/job" p = true)
  /\ (In p (debug_endpoints (classify paths))
      <-> In p paths /\ contains "/system/" p = false
          /\ contains "/pipeline" p = false /\ contains "/job" p = false
          /\ contains "/debug/" p = true)
  /\ (In p (other_endpoints (classify paths))
      <-> In p paths /\ contains "/system/" p = false
          /\ contains "/pipeline" p = false /\ contains "/job" p = false
          /\ contains "/debug/" p = false).
Proof.
  intros paths p.
  change (system_endpoints (classify paths)) with (bucket System (classify paths)).
  change (pipeline_endpoints (classify paths)) with (bucket Pipeline (classify paths)).
  change (job_endpoints (classify paths)) with (bucket Job (classify paths)).
  change (debug_endpoints (classify paths)) with (bucket Debug (classify paths)).
  change (other_endpoints (classify paths)) with (bucket Other (classify paths)).
  rewrite !bucket_classify, !filter_In.
  unfold in_category, category_of.
  destruct (contains "/system/" p), (contains "/pipeline" p),
    (contains "/job" p), (contains "/debug/" p); cbn;
    repeat split; intros; intuition congruence.
Qed.

Example debug_pipelines_is_a_pipeline :
  category_of "/api/v1/debug/pipelines" = Pipeline
  /\ category_of "/api/v1/debug/jobs/1" = Job
  /\ category_of "/api/v1/system/jobs" = System.
Proof. repeat split. Qed.

(** *** Sorted groups *)

Lemma ascii_compare_N (a b : ascii) :
  Ascii.compare a b = N.compare (N_of_ascii a) (N_of_ascii b).
Proof. reflexivity. Qed.

Lemma ascii_compare_refl (a : ascii) : Ascii.compare a a = Eq.
Proof. rewrite ascii_compare_N. apply N.compare_refl. Qed.

Lemma ascii_compare_lt_trans (a b c : ascii) :
  Ascii.compare a b = Lt -> Ascii.compare b c = Lt -> Ascii.compare a c = Lt.
Proof.
  rewrite !ascii_compare_N, !N.compare_lt_iff. apply N.lt_trans.
Qed.

Lemma string_compare_lt_trans (s1 : string) : forall s2 s3,
  String.compare s1 s2 = Lt -> String.compare s2 s3 = Lt ->
  String.compare s1 s3 = Lt.
Proof.
  induction s1 as [|a s1 IH]; intros [|b s2] [|c s3]; cbn; try congruence.
  destruct (Ascii.compare a b) eqn:Eab; try discriminate;
    destruct (Ascii.compare b c) eqn:Ebc; try discriminate; intros H1 H2.
  - apply Ascii.compare_eq_iff in Eab, Ebc. subst.
    rewrite ascii_compare_refl. eauto.
  - apply Ascii.compare_eq_iff in Eab. subst. now rewrite Ebc.
  - apply Ascii.compare_eq_iff in Ebc. subst. now rewrite Eab.
  - now rewrite (ascii_compare_lt_trans _ _ _ Eab Ebc).
Qed.

Lemma string_compare_refl (s : string) : String.compare s s = Eq.
Proof.
  induction s as [|a s IH]; cbn; [reflexivity|].
  now rewrite ascii_compare_refl.
Qed.

Lemma string_leb_trans (s1 s2 s3 : string) :
  String.leb s1 s2 = true -> String.leb s2 s3 = true ->
  String.leb s1 s3 = true.
Proof.
  unfold String.leb.
  destruct (String.compare s1 s2) eqn:E12; try discriminate;
    destruct (String.compare s2 s3) eqn:E23; try discriminate; intros _ _.
  - apply String.compare_eq_iff in E12, E23. subst.
    now rewrite string_compare_refl.
  - apply String.compare_eq_iff in E12. subst. now rewrite E23.
  - apply String.compare_eq_iff in E23. subst. now rewrite E12.
  - now rewrite (string_compare_lt_trans _ _ _ E12 E23).
Qed.

Lemma StronglySorted_filter {A : Type} (R : A -> A -> Prop) (f : A -> bool)
    (l : list A) :
  StronglySorted R l -> StronglySorted R (filter f l).
Proof.
  induction 1 as [|a l Hs IH Hf]; cbn; [constructor|].
  destruct (f a); [|exact IH].
  constructor; [exact IH|].
  rewrite Forall_forall in *. intros x Hx. apply Hf.
  now apply filter_In in Hx.
Qed.

Lemma sorted_is_sorted (keys : list string) :
  StronglySorted (fun x y => String.leb x y = true) (sorted keys).
Proof.
  apply Sorted_StronglySorted.
  - intros x y z. apply string_leb_trans.
  - apply (StringSort.Sorted_sort keys).
Qed.

(** X3. Each of the five groups the script prints lists its endpoints in
    ascending order, and is the run of the sorted keys that fall in its
    category. *)
Theorem groups_are_sorted : forall (keys : list string) (c : category),
  bucket c (group_endpoints keys) = filter (in_category c) (sorted keys)
  /\ StronglySorted (fun x y => String.leb x y = true)
       (bucket c (group_endpoints keys)).
Proof.
  intros keys c. unfold group_endpoints. rewrite bucket_classify.
  split; [reflexivity|]. apply StronglySorted_filter, sorted_is_sorted.
Qed.

(** *** The script as a whole *)

Lemma has_key_In keys endpoint : has_key keys endpoint = true <-> In endpoint keys.
Proof.
  unfold has_key. rewrite existsb_exists. split.
  - intros (k & Hk & E). apply String.eqb_eq in E. now subst.
  - intros H. exists endpoint. split; [exact H | apply String.eqb_refl].
Qed.

(** A run that analyses: the answer was 200 with a document whose
    [paths] has keys. *)
Lemma check_openapi_inv r a :
  check_openapi r = Ok (Analysed a) ->
  exists spec keys,
    r = Response 200 (Some spec)
    /\ (paths <- py_get spec "paths" (JObj []) ;; py_keys paths) = Ok keys
    /\ a = {| grouped := group_endpoints keys;
              total_endpoints := List.length keys;
              expected_exists :=
                map (fun endpoint => (endpoint, has_key keys endpoint))
                  client_expected;
              provided := filter system_or_pipeline (sorted keys);
              saved_spec := spec |}.
Proof.
  unfold check_openapi. destruct r as [e|st b]; [discriminate|].
  cbn [call bind status_code].
  destruct (Z.eqb_spec st 200) as [->|]; [|discriminate].
  destruct b as [spec|]; [|discriminate].
  unfold resp_json. cbn [body bind].
  destruct (py_get spec "paths" (JObj [])) as [paths|e] eqn:E1;
    [|discriminate].
  cbn [bind].
  destruct (py_keys paths) as [keys|e] eqn:E2; [|discriminate].
  cbn [bind]. intros [= <-]. exists spec, keys.
  split; [reflexivity|]. split; [|reflexivity].
  rewrite E1. exact E2.
Qed.



(** X5. The total printed, [len(paths)], is the sum of the sizes of the
    five groups. *)
Theorem total_is_sum_of_groups : forall r a,
  check_openapi r = Ok (Analysed a) ->
  total_endpoints a
  = List.length (system_endpoints (grouped a))
    + List.length (pipeline_endpoints (grouped a))
    + List.length (job_endpoints (grouped a))
    + List.length (debug_endpoints (grouped a))
    + List.length (other_endpoints (grouped a)).
Proof.
  intros r a H. apply check_openapi_inv in H.
  destruct H as (spec & keys & _ & _ & ->). cbn [total_endpoints grouped].
  pose proof (all_buckets_classify (sorted keys)) as P.
  apply Permutation_length in P.
  unfold sorted in P at 2. rewrite <- (Permutation_length
                                       (StringSort.Permuted_sort keys)) in P.
  unfold all_buckets in P. rewrite !length_app in P.
  unfold group_endpoints. lia.
Qed.

Lemma total_of_sample :
  exists a,
    check_openapi (Response 200 (Some sample_spec)) = Ok (Analysed a)
    /\ total_endpoints a = 7.
Proof.
  eexists.
  match goal with
  | |- ?run = ?o /\ _ => assert (H : run = o) by (vm_compute; reflexivity)
  end.
  split; [exact H|].
  etransitivity; [exact (total_is_sum_of_groups _ _ H) | reflexivity].
Defined.

Lemma provided_split (l : list string) :
  Permutation (filter system_or_pipeline l)
    (filter (in_category System) l ++ filter (in_category Pipeline) l).
Proof.
  unfold system_or_pipeline, in_category, category_of.
  induction l as [|p l IH]; cbn; [constructor|].
  destruct (contains "/system/" p); cbn.
  - now constructor.
  - destruct (contains "/pipeline" p); cbn.
    + now apply Permutation_cons_app.
    + destruct (contains "/job" p); [exact IH|].
      destruct (contains "/debug/" p); exact IH.
Qed.

(** X6. The endpoints listed under "Server actually provides" are those
    of the system group and of the pipeline group, each once. *)
Theorem provided_is_system_and_pipeline : forall r a,
  check_openapi r = Ok (Analysed a) ->
  Permutation (provided a)
    (system_endpoints (grouped a) ++ pipeline_endpoints (grouped a)).
Proof.
  intros r a H. apply check_openapi_inv in H.
  destruct H as (spec & keys & _ & _ & ->). cbn [provided grouped].
  change (system_endpoints (group_endpoints keys))
    with (bucket System (group_endpoints keys)).
  change (pipeline_endpoints (group_endpoints keys))
    with (bucket Pipeline (group_endpoints keys)).
  unfold group_endpoints. rewrite !bucket_classify. apply provided_split.
Qed.

Lemma provided_of_sample :
  exists a,
    check_openapi (Response 200 (Some sample_spec)) = Ok (Analysed a)
    /\ provided a
       = ["/api/v1/debug/pipelines"; "/api/v1/pipelines";
          "/api/v1/pipelines/catalog"; "/api/v1/system/health"]
    /\ Permutation (provided a)
         (system_endpoints (grouped a) ++ pipeline_endpoints (grouped a)).
Proof.
  eexists.
  match goal with
  | |- ?run = ?o /\ _ => assert (H : run = o) by (vm_compute; reflexivity)
  end.
  split; [exact H|]. split; [reflexivity|].
  exact (provided_is_system_and_pipeline _ _ H).
Defined.

(** X7. An expected endpoint reported as EXISTS is listed in the system
    group or in the pipeline group; one reported as MISSING is in none of
    the five groups. Each of the four expected endpoints is reported once,
    in the order of the list. *)
Theorem expected_endpoints_report : forall r a,
  check_openapi r = Ok (Analysed a) ->
  map fst (expected_exists a) = client_expected
  /\ forall endpoint found,
       In (endpoint, found) (expected_exists a) ->
       if found
       then In endpoint (system_endpoints (grouped a))
            \/ In endpoint (pipeline_endpoints (grouped a))
       else ~ In endpoint (all_buckets (grouped a)).
Proof.
  intros r a H. apply check_openapi_inv in H.
  destruct H as (spec & keys & _ & _ & ->).
  cbn [expected_exists grouped]. split; [reflexivity|].
  intros endpoint found Hin. apply in_map_iff in Hin.
  destruct Hin as (e & [= <- <-] & He).
  assert (Hk : In e keys <-> In e (sorted keys)).
  { split; apply Permutation_in.
    - apply StringSort.Permuted_sort.
    - symmetry. apply StringSort.Permuted_sort. }
  destruct (has_key keys e) eqn:K.
  - apply has_key_In, Hk in K.
    change (system_endpoints (group_endpoints keys))
      with (bucket System (group_endpoints keys)).
    change (pipeline_endpoints (group_endpoints keys))
      with (bucket Pipeline (group_endpoints keys)).
    unfold group_endpoints. rewrite !bucket_classify, !filter_In.
    cbn in He.
    destruct He as [<-|[<-|[<-|[<-|[]]]]]; [left|left|right|right];
      (split; [exact K | reflexivity]).
  - intro Hb.
    assert (In e (sorted keys)).
    { eapply Permutation_in; [apply all_buckets_classify | exact Hb]. }
    apply Hk, has_key_In in H. congruence.
Qed.

Lemma expected_of_sample :
  exists a,
    check_openapi (Response 200 (Some sample_spec)) = Ok (Analysed a)
    /\ expected_exists a
       = [("/api/v1/system/info", false); ("/api/v1/system/server-info", false);
          ("/api/v1/pipelines/catalog", true);
          ("/api/v1/pipelines/schema", false)]
    /\ map fst (expected_exists a) = client_expected.
Proof.
  eexists.
  match goal with
  | |- ?run = ?o /\ _ => assert (H : run = o) by (vm_compute; reflexivity)
  end.
  split; [exact H|]. split; [reflexivity|].
  exact (proj1 (expected_endpoints_report _ _ H)).
Defined.

(** X8. A document with no [paths] entry is analysed all the same: five
    empty groups, a total of zero, the four expected endpoints MISSING,
    nothing provided; the document is saved. *)
Theorem no_paths_gives_empty_analysis : forall m : list (string * json),
  lookup "paths" m = None ->
  check_openapi (Response 200 (Some (JObj m)))
  = Ok (Analysed
          {| grouped := empty_groups;
             total_endpoints := 0;
             expected_exists := map (fun e => (e, false)) client_expected;
             provided := [];
             saved_spec := JObj m |}).
Proof.
  intros m H. unfold check_openapi. cbn. now rewrite H.
Qed.

Lemma no_paths_sample :
  lookup "paths" [("openapi", JStr "3.1.0")] = None
  /\ exists a,
       check_openapi (Response 200 (Some (JObj [("openapi", JStr "3.1.0")])))
       = Ok (Analysed a)
       /\ grouped a = empty_groups.
Proof.
  split; [reflexivity|]. eexists. split.
  - exact (no_paths_gives_empty_analysis [("openapi", JStr "3.1.0")] eq_refl).
  - reflexivity.
Defined.

End OpenApiSpec.

(** ** The quick test suite *)

Module QuickTestSpec.
Import QuickTest.

Local Open Scope Z_scope.

Ltac on_status st :=
  repeat match goal with
         | |- context [(st =? ?k)%Z] =>
             destruct (Z.eqb_spec st k); [subst st|]
         end.

(** *** Verdicts of the status-code probes *)













(** The same through the suite: the entry logged for such a server. *)
Example basic_health_check_unreadable_body r :
  attempt "Basic Health Check" (basic_health_check (Response 200 None)) r
  = _log_result "Basic Health Check" false
      [Txt "Exception: "; Err JSONDecodeError] r.
Proof. reflexivity. Qed.

(** The two debug probes that [test_authentication] and [test_pipelines]
    run on their own accept 200 (with a readable body) and 404 only. *)
Lemma inline_debug_probes_reject_401 b :
  fst (verdict (token_debug_info (Response 401 b))) = false
  /\ fst (verdict (pipeline_debug_info (Response 401 b))) = false
  /\ fst (verdict (token_debug_info (Response 404 b))) = true
  /\ fst (verdict (pipeline_debug_info (Response 404 b))) = true.
Proof. repeat split. Qed.

(** *** Job submission *)



Example job_submission_created :
  submission_outcome
    (job_submission (Response 201 (Some (JObj [("id", JStr "job-1")]))))
  = (true, [Txt "Status: "; Int 201; Txt ", Job ID: "; Val (JStr "job-1")],
     JStr "job-1").
Proof. reflexivity. Qed.

(** *** Missing endpoints *)

(** Whatever the status of the response, the probe of a missing endpoint
    is logged as passed; only the remark after the status differs. *)
Lemma missing_endpoint_verdict st b :
  verdict (missing_endpoint (Response st b))
  = (true,
     [Txt "Status: "; Int st;
      Txt (if st =? 404 then " (Missing as expected)"
           else " (Unexpectedly implemented!)")]).
Proof.
  unfold missing_endpoint; cbn. now destruct (st =? 404).
Qed.

(** C2 at status 500. The probe of a missing endpoint is logged as passed
    whatever the status of the response; on a server that answers 500 to
    the four requests, the four verdicts are passes, with the remark of an
    endpoint found implemented. *)
Theorem missing_endpoint_passes_on_500 :
  (forall (st : Z) (b : option json),
      verdict (missing_endpoint (Response st b))
      = (true,
         [Txt "Status: "; Int st;
          Txt (if st =? 404 then " (Missing as expected)"
               else " (Unexpectedly implemented!)")]))
  /\ results_details (test_missing_endpoints erroring_world init_results)
     = map (fun name =>
              {| test := name; passed := true;
                 details := [Txt "Status: "; Int 500;
                             Txt " (Unexpectedly implemented!)"] |})
         ["SSE Endpoint Endpoint"; "Job Results Download Endpoint";
          "Job Artifacts Endpoint"; "Video Upload Endpoint"]%string.
Proof.
  split; [exact missing_endpoint_verdict | reflexivity].
Qed.

(** The statuses 404 and 200 both pass, and their details differ however
    the interpolated parts are printed. *)
Lemma missing_endpoint_200_flagged b b' str_json str_exn :
  fst (verdict (missing_endpoint (Response 200 b))) = true
  /\ fst (verdict (missing_endpoint (Response 404 b'))) = true
  /\ render str_json str_exn (snd (verdict (missing_endpoint (Response 200 b))))
     = "Status: 200 (Unexpectedly implemented!)"%string
  /\ render str_json str_exn (snd (verdict (missing_endpoint (Response 404 b'))))
     = "Status: 404 (Missing as expected)"%string.
Proof. repeat split. Qed.

Lemma missing_endpoint_raised e :
  verdict (missing_endpoint (Raised e)) = (false, [Txt "Exception: "; Err e]).
Proof. reflexivity. Qed.

(** *** The streaming probe *)

Lemma read_events_data_line lines broken :
  existsb is_data_line lines = true ->
  exists details, read_events (map StrLine lines) broken = Ok (true, details).
Proof.
  induction lines as [|line lines IH]; cbn [existsb map read_events];
    [discriminate|].
  fold (is_data_line line).
  destruct (is_data_line line); cbn [orb]; [eauto | exact IH].
Qed.

Lemma read_events_no_data_line lines broken :
  existsb is_data_line lines = false ->
  read_events (map StrLine lines) broken
  = match broken with
    | Some e => Raise e
    | None => Ok (false, [Txt "No events received"])
    end.
Proof.
  induction lines as [|line lines IH]; cbn [existsb map read_events];
    [reflexivity|].
  fold (is_data_line line).
  destruct (is_data_line line); cbn [orb]; [discriminate | exact IH].
Qed.

(** Lines that arrive undecoded: the first one that is not empty raises. *)
Lemma read_events_undecoded lines broken :
  read_events (map BytesLine lines) broken
  = if existsb nonempty lines then Raise TypeError
    else match broken with
         | Some e => Raise e
         | None => Ok (false, [Txt "No events received"])
         end.
Proof.
  induction lines as [|line lines IH]; cbn [existsb map read_events];
    [reflexivity|].
  destruct (nonempty line); cbn [orb]; [reflexivity | exact IH].
Qed.

(** C9, as the code has it. The streaming probe passes when the request
    times out, the detail then being
    "Connection timeout (expected if not implemented)"; when the status is
    200, the stream is decoded to text and a data line is received before
    the stream ends or breaks; and when the status is 404. Every other
    outcome fails: a 200 stream with no data line, a stream that breaks
    first, a 200 stream whose lines arrive undecoded, another status,
    another exception. *)
Theorem sse_connection_verdict : forall o : sse_result,
  (fst (sse_connection o) = true
   <-> (exists msg, o = SseRaised (Timeout msg))
       \/ (exists lines broken,
              o = SseResponse 200 (Decoded lines) broken
              /\ existsb is_data_line lines = true)
       \/ (exists body broken, o = SseResponse 404 body broken))
  /\ (forall lines broken,
        fst (sse_connection (SseResponse 200 (Undecoded lines) broken))
        = false)
  /\ (forall msg,
        sse_connection (SseRaised (Timeout msg))
        = (true, [Txt "Connection timeout (expected if not implemented)"]))
  /\ (forall msg str_json str_exn,
        render str_json str_exn (snd (sse_connection (SseRaised (Timeout msg))))
        = "Connection timeout (expected if not implemented)"%string).
Proof.
  assert (U : forall lines broken,
             fst (sse_connection (SseResponse 200 (Undecoded lines) broken))
             = false).
  { intros lines broken. cbn [sse_connection Z.eqb Pos.eqb iter_lines].
    rewrite read_events_undecoded.
    now destruct (existsb nonempty lines), broken. }
  intro o. split; [|split; [exact U|split; reflexivity]].
  destruct o as [e|st body broken]; cbn [sse_connection].
  - destruct e; cbn; split; try discriminate; eauto;
      intros [[msg' H]|[(l & b & H & _)|(l & b & H)]]; discriminate.
  - on_status st.
    + destruct body as [lines|lines]; cbn [iter_lines].
      * destruct (existsb is_data_line lines) eqn:D.
        -- destruct (read_events_data_line lines broken D) as [d ->]. cbn.
           split; [intros _; right; left; eauto | reflexivity].
        -- rewrite (read_events_no_data_line lines broken D).
           destruct broken; cbn; split; try discriminate;
             intros [[msg' H]|[(l & b & H & H')|(l & b & H)]];
             try discriminate; inversion H; subst; congruence.
      * rewrite read_events_undecoded.
        destruct (existsb nonempty lines), broken; cbn;
          (split; [discriminate|]);
          intros [[msg' H]|[(l & b & H & _)|(l & b & H)]]; discriminate.
    + cbn. split; [intros _; right; right; eauto | reflexivity].
    + cbn. split; [discriminate|].
      intros [[msg' H]|[(l & b & H & _)|(l & b & H)]];
        try discriminate; inversion H; subst; congruence.
Qed.

(** C9, as stated, fails on the wording of the detail: the text logged on
    a timeout starts with a capital letter. *)
Lemma sse_timeout_detail_differs :
  ~ (forall str_json str_exn,
        render str_json str_exn
          (snd (sse_connection (SseRaised (Timeout "timed out"))))
        = "connection timeout (expected if not implemented)"%string).
Proof.
  intro H. specialize (H (fun _ => EmptyString) (fun _ => EmptyString)).
  discriminate H.
Qed.

Example sse_first_event :
  sse_connection
    (SseResponse 200
       (Decoded (map literal [""; ": keep-alive"; "data:  {} "; "data: 2"]))
       None)
  = (true, [Txt "Received SSE event: "; Txt "{}"; Txt "..."]).
Proof. reflexivity. Qed.

Example sse_stream_breaks :
  sse_connection
    (SseResponse 200 (Decoded [literal ""]) (Some (Timeout "read timed out")))
  = (false, [Txt "Stream error: "; Err (Timeout "read timed out")]).
Proof. reflexivity. Qed.

(** The line [data:] followed by a no-break space, two letters e with an
    acute accent, and an ideographic space: white space is stripped on
    both sides and the letters are kept, two bytes each in the detail. *)
Example sse_event_of_code_points :
  sse_connection
    (SseResponse 200
       (Decoded [literal "data:" ++ [160; 233; 233; 12288]%N]) None)
  = (true,
     [Txt "Received SSE event: ";
      Txt (string_of_list_ascii
             (map ascii_of_nat [195; 169; 195; 169]%nat));
      Txt "..."]).
Proof. reflexivity. Qed.

(** Sixty letters e with an acute accent: fifty of them are kept. *)
Example sse_event_cut_at_fifty :
  sse_connection
    (SseResponse 200 (Decoded [literal "data:" ++ repeat 233%N 60]) None)
  = (true,
     [Txt "Received SSE event: "; Txt (encode (repeat 233%N 50)); Txt "..."]).
Proof. reflexivity. Qed.

(** The bytes of [data: 1], undecoded, after an empty line. *)
Example sse_undecoded_line :
  sse_connection
    (SseResponse 200
       (Undecoded
          [[]; [Byte.x64; Byte.x61; Byte.x74; Byte.x61; Byte.x3a; Byte.x20;
                Byte.x31]])
       None)
  = (false, [Txt "Stream error: "; Err TypeError]).
Proof. reflexivity. Qed.

(** *** Counting the verdicts *)

Local Open Scope nat_scope.

(** One call of [_log_result] adds one verdict, to one counter. *)
Lemma log_result_counts name p d r :
  List.length (results_details (_log_result name p d r))
  = S (List.length (results_details r))
  /\ total_tests (_log_result name p d r) = S (total_tests r)
  /\ (if p
      then results_passed (_log_result name p d r) = S (results_passed r)
           /\ results_failed (_log_result name p d r) = results_failed r
      else results_passed (_log_result name p d r) = results_passed r
           /\ results_failed (_log_result name p d r) = S (results_failed r)).
Proof.
  unfold total_tests; cbn. rewrite length_app; cbn.
  destruct p; repeat split; lia.
Qed.

Lemma consistent_init : consistent init_results.
Proof. reflexivity. Qed.

Lemma consistent_log name p d r :
  consistent r -> consistent (_log_result name p d r).
Proof.
  unfold consistent. intro H.
  destruct (log_result_counts name p d r) as (-> & Ht & _).
  unfold total_tests in Ht. lia.
Qed.

Lemma reachable_consistent r : reachable r -> consistent r.
Proof.
  induction 1; [apply consistent_init | now apply consistent_log].
Qed.

Lemma attempt_reachable name c r :
  reachable r -> reachable (attempt name c r).
Proof.
  unfold attempt. destruct (verdict c). now constructor.
Qed.

Lemma attempt_length name c r :
  List.length (results_details (attempt name c r))
  = S (List.length (results_details r)).
Proof.
  unfold attempt. destruct (verdict c). apply log_result_counts.
Qed.

Create HintDb suite.
#[local] Hint Resolve attempt_reachable reach_log : suite.

Lemma test_health_endpoints_reachable w r :
  reachable r -> reachable (test_health_endpoints w r).
Proof. unfold test_health_endpoints; auto with suite. Qed.

Lemma test_authentication_reachable w r :
  reachable r -> reachable (test_authentication w r).
Proof. unfold test_authentication; auto with suite. Qed.

Lemma test_pipelines_reachable w r :
  reachable r -> reachable (test_pipelines w r).
Proof. unfold test_pipelines; auto with suite. Qed.

Lemma test_job_endpoints_reachable w r :
  reachable r -> reachable (snd (test_job_endpoints w r)).
Proof.
  unfold test_job_endpoints.
  destruct (submission_outcome _) as [[p d] id].
  destruct (truthy id); cbn; auto with suite.
Qed.

Lemma test_missing_endpoints_reachable w r :
  reachable r -> reachable (test_missing_endpoints w r).
Proof.
  unfold test_missing_endpoints, missing_endpoints; cbn [fold_left].
  auto 6 with suite.
Qed.

Lemma test_debug_endpoints_reachable w r :
  reachable r -> reachable (test_debug_endpoints w r).
Proof.
  unfold test_debug_endpoints, debug_endpoints; cbn [fold_left].
  auto 6 with suite.
Qed.

Lemma test_sse_connection_reachable w r :
  reachable r -> reachable (test_sse_connection w r).
Proof.
  unfold test_sse_connection. destruct (sse_connection _). auto with suite.
Qed.

#[local] Hint Resolve test_health_endpoints_reachable
  test_authentication_reachable test_pipelines_reachable
  test_job_endpoints_reachable test_missing_endpoints_reachable
  test_debug_endpoints_reachable test_sse_connection_reachable : suite.

(** The number of verdicts each category adds. *)
Lemma test_health_endpoints_length w r :
  List.length (results_details (test_health_endpoints w r))
  = 2 + List.length (results_details r).
Proof. unfold test_health_endpoints. now rewrite !attempt_length. Qed.

Lemma test_authentication_length w r :
  List.length (results_details (test_authentication w r))
  = 2 + List.length (results_details r).
Proof. unfold test_authentication. now rewrite !attempt_length. Qed.

Lemma test_pipelines_length w r :
  List.length (results_details (test_pipelines w r))
  = 2 + List.length (results_details r).
Proof. unfold test_pipelines. now rewrite !attempt_length. Qed.

Lemma test_job_endpoints_length w r :
  List.length (results_details (snd (test_job_endpoints w r)))
  = (if truthy (fst (test_job_endpoints w r)) then 3 else 2)
    + List.length (results_details r).
Proof.
  unfold test_job_endpoints.
  destruct (submission_outcome _) as [[p d] id].
  destruct (truthy id) eqn:T; cbn [fst snd]; rewrite T;
    rewrite ?attempt_length;
    rewrite (proj1 (log_result_counts _ _ _ _)), attempt_length; reflexivity.
Qed.

Lemma test_missing_endpoints_length w r :
  List.length (results_details (test_missing_endpoints w r))
  = 4 + List.length (results_details r).
Proof.
  unfold test_missing_endpoints, missing_endpoints; cbn [fold_left].
  now rewrite !attempt_length.
Qed.

Lemma test_debug_endpoints_length w r :
  List.length (results_details (test_debug_endpoints w r))
  = 4 + List.length (results_details r).
Proof.
  unfold test_debug_endpoints, debug_endpoints; cbn [fold_left].
  now rewrite !attempt_length.
Qed.

Lemma test_sse_connection_length w r :
  List.length (results_details (test_sse_connection w r))
  = 1 + List.length (results_details r).
Proof.
  unfold test_sse_connection. destruct (sse_connection _).
  apply log_result_counts.
Qed.

(** The id the submission step of a run yields. *)
Lemma test_job_endpoints_id w r :
  fst (test_job_endpoints w r)
  = snd (submission_outcome (job_submission (post_job w))).
Proof.
  unfold test_job_endpoints.
  destruct (submission_outcome _) as [[p d] id]. reflexivity.
Qed.

(** When the submission yields no id the status retrieval is not run: the
    category logs the job list and the submission, and nothing else. *)
Lemma test_job_endpoints_skips w r :
  truthy (fst (test_job_endpoints w r)) = false ->
  exists p1 d1 p2 d2,
    snd (test_job_endpoints w r)
    = _log_result "Job Submission" p2 d2 (_log_result "Job List" p1 d1 r).
Proof.
  unfold test_job_endpoints, attempt.
  destruct (verdict (job_list (get_jobs w))) as [p1 d1].
  destruct (submission_outcome _) as [[p2 d2] id].
  cbn [fst snd]. intros ->. now exists p1, d1, p2, d2.
Qed.

Lemma run_all_tests_reachable w : reachable (run_all_tests w).
Proof.
  unfold run_all_tests.
  pose proof (test_job_endpoints_reachable w
                (test_pipelines w
                   (test_authentication w
                      (test_health_endpoints w init_results)))) as H.
  destruct (test_job_endpoints w _) as [id r].
  cbn [snd] in H. auto 8 using reach_init with suite.
Qed.

Lemma run_all_tests_length w :
  List.length (results_details (run_all_tests w))
  = 17 + (if truthy (snd (submission_outcome (job_submission (post_job w))))
          then 1 else 0).
Proof.
  unfold run_all_tests.
  pose proof (test_job_endpoints_length w
                (test_pipelines w
                   (test_authentication w
                      (test_health_endpoints w init_results)))) as H.
  rewrite test_job_endpoints_id in H.
  destruct (test_job_endpoints w _) as [id r]. cbn [snd] in H.
  rewrite test_sse_connection_length, test_debug_endpoints_length,
    test_missing_endpoints_length, H, test_pipelines_length,
    test_authentication_length, test_health_endpoints_length.
  cbn [init_results results_details List.length].
  destruct (truthy _); reflexivity.
Qed.

(** C6. At every state a run reaches the passed count plus the failed
    count is the number of verdicts recorded, that is of probes executed:
    a call of [_log_result] adds one verdict and one to exactly one of the
    two counters, each category leads from a reachable state to a
    reachable state, a job category whose submission yields no id adds two
    verdicts (the status retrieval, skipped, counts as neither passed nor
    failed) and three otherwise, and a whole run records seventeen
    verdicts, or eighteen when the status retrieval runs. *)
Theorem counts_match_executed_probes : forall (w : world) (r : results),
  reachable r ->
  total_tests r = List.length (results_details r)
  /\ (forall name p d,
        reachable (_log_result name p d r)
        /\ total_tests (_log_result name p d r) = S (total_tests r)
        /\ List.length (results_details (_log_result name p d r))
           = S (List.length (results_details r)))
  /\ (reachable (test_health_endpoints w r)
      /\ reachable (test_authentication w r)
      /\ reachable (test_pipelines w r)
      /\ reachable (snd (test_job_endpoints w r))
      /\ reachable (test_missing_endpoints w r)
      /\ reachable (test_debug_endpoints w r)
      /\ reachable (test_sse_connection w r))
  /\ total_tests (snd (test_job_endpoints w r))
     = (if truthy (fst (test_job_endpoints w r)) then 3 else 2)
       + total_tests r
  /\ (truthy (fst (test_job_endpoints w r)) = false ->
      exists p1 d1 p2 d2,
        snd (test_job_endpoints w r)
        = _log_result "Job Submission" p2 d2 (_log_result "Job List" p1 d1 r))
  /\ reachable (run_all_tests w)
  /\ total_tests (run_all_tests w)
     = 17 + (if truthy (snd (submission_outcome (job_submission (post_job w))))
             then 1 else 0).
Proof.
  intros w r Hr.
  pose proof (reachable_consistent r Hr) as Hc.
  split; [exact Hc|].
  split.
  { intros name p d. split; [now constructor|].
    destruct (log_result_counts name p d r) as (Hl & Ht & _). now split. }
  split; [repeat split; auto with suite|].
  split.
  { pose proof (reachable_consistent _ (test_job_endpoints_reachable w r Hr))
      as Hj.
    unfold consistent, total_tests in *.
    rewrite Hj, test_job_endpoints_length. lia. }
  split; [apply test_job_endpoints_skips|].
  split; [apply run_all_tests_reachable|].
  pose proof (reachable_consistent _ (run_all_tests_reachable w)) as Hf.
  unfold consistent, total_tests in *.
  rewrite Hf. apply run_all_tests_length.
Qed.

(** The theorem at a server that refuses every connection: the submission
    yields no id, and seventeen verdicts are counted. *)
Lemma counts_match_offline :
  reachable init_results
  /\ total_tests (run_all_tests offline_world) = 17.
Proof.
  split; [exact reach_init|].
  exact (proj2 (proj2 (proj2 (proj2 (proj2 (proj2
           (counts_match_executed_probes offline_world init_results
              reach_init))))))).
Defined.

Example run_offline :
  let r := run_all_tests offline_world in
  results_passed r = 1 /\ results_failed r = 16 /\ exit_code r = 1%Z.
Proof. vm_compute. auto. Qed.

Example run_live :
  let r := run_all_tests live_world in
  results_passed r = 18 /\ results_failed r = 0 /\ exit_code r = 0%Z
  /\ map test (results_details r)
     = ["Basic Health Check"; "Detailed Health Check"; "Authentication Test";
        "Token Debug Info"; "Pipeline List"; "Pipeline Debug Info";
        "Job List"; "Job Submission"; "Job Status Retrieval";
        "SSE Endpoint Endpoint"; "Job Results Download Endpoint";
        "Job Artifacts Endpoint"; "Video Upload Endpoint";
        "Server Info Debug"; "Token Info Debug"; "Pipeline Debug Debug";
        "Request Log Debug"; "SSE Connection"]%string.
Proof. vm_compute. auto. Qed.

(** *** The counters against the verdicts *)

Lemma log_result_partition name p d r :
  results_passed r = List.length (filter is_pass (results_details r)) ->
  results_failed r = List.length (filter is_fail (results_details r)) ->
  results_passed (_log_result name p d r)
  = List.length (filter is_pass (results_details (_log_result name p d r)))
  /\ results_failed (_log_result name p d r)
     = List.length (filter is_fail (results_details (_log_result name p d r))).
Proof.
  intros Hp Hf. unfold _log_result.
  cbn [results_passed results_failed results_details].
  rewrite !filter_app, !length_app. cbn [filter].
  unfold is_pass at 2, is_fail at 2. cbn [passed].
  destruct p; cbn [negb List.length]; lia.
Qed.

Lemma reachable_partition r :
  reachable r ->
  results_passed r = List.length (filter is_pass (results_details r))
  /\ results_failed r = List.length (filter is_fail (results_details r)).
Proof.
  induction 1 as [|r name p d Hr [IHp IHf]]; [now split|].
  exact (log_result_partition name p d r IHp IHf).
Qed.

(** X9. At every state of a run the passed counter is the number of
    verdicts recorded as passed and the failed counter the number of
    verdicts recorded as failed. *)
Theorem counters_partition_verdicts : forall r : results,
  reachable r ->
  results_passed r = List.length (filter is_pass (results_details r))
  /\ results_failed r = List.length (filter is_fail (results_details r)).
Proof.
  exact reachable_partition.
Qed.

Lemma counters_of_live_run :
  reachable (run_all_tests live_world)
  /\ results_passed (run_all_tests live_world) = 18
  /\ results_failed (run_all_tests live_world) = 0.
Proof.
  split; [apply run_all_tests_reachable|].
  destruct (counters_partition_verdicts _ (run_all_tests_reachable live_world))
    as [Hp Hf].
  split; [etransitivity; [exact Hp | reflexivity]
         | etransitivity; [exact Hf | reflexivity]].
Defined.

(** X10. The process exits with 0 when every verdict recorded by the run
    is a pass and with 1 when at least one is a fail; it has no other
    exit code. *)
Theorem main_exit_code : forall w : world,
  (main w = 0%Z
   <-> forall e, In e (results_details (run_all_tests w)) -> passed e = true)
  /\ (main w = 1%Z
      <-> exists e, In e (results_details (run_all_tests w))
                    /\ passed e = false)
  /\ (main w = 0%Z \/ main w = 1%Z).
Proof.
  intro w. unfold main, exit_code.
  rewrite (proj2 (reachable_partition _ (run_all_tests_reachable w))).
  set (l := results_details (run_all_tests w)). clearbody l.
  assert (H : filter is_fail l = [] <-> forall e, In e l -> passed e = true).
  { induction l as [|e l IH]; cbn.
    - split; [intros _ e [] | reflexivity].
    - unfold is_fail at 1. destruct (passed e) eqn:P; cbn.
      + rewrite IH. split.
        * intros H e' [<-|He']; [exact P | now apply H].
        * intros H e' He'. apply H. now right.
      + split; [discriminate|]. intro H.
        specialize (H e (or_introl eq_refl)). congruence. }
  assert (H' : filter is_fail l <> []
               <-> exists e, In e l /\ passed e = false).
  { split.
    - intro Hne. destruct (filter is_fail l) as [|e l'] eqn:F;
        [contradiction|].
      assert (He : In e (filter is_fail l)) by (rewrite F; now left).
      apply filter_In in He. destruct He as [He Hf]. exists e.
      split; [exact He|]. unfold is_fail in Hf. now destruct (passed e).
    - intros (e & He & Hp) Hnil. rewrite (proj1 H Hnil e He) in Hp.
      discriminate. }
  destruct (filter is_fail l) as [|e l']; cbn.
  - split; [split; [intros _; now apply (proj1 H) | reflexivity]|].
    split; [|now left].
    split; [discriminate|]. intros Hex. apply (proj2 H') in Hex.
    now elim Hex.
  - split; [split; [discriminate|]|].
    + intro Hall. apply (proj2 H) in Hall. discriminate.
    + split; [|now right].
      split; [intros _; apply (proj1 H'); discriminate | reflexivity].
Qed.

Example main_live_and_offline : main live_world = 0%Z /\ main offline_world = 1%Z.
Proof. split; reflexivity. Qed.

(** *** The order of the report *)

Lemma attempt_appends name c r :
  exists e,
    results_details (attempt name c r) = results_details r ++ [e]
    /\ test e = name.
Proof.
  unfold attempt. destruct (verdict c) as [p d].
  now exists {| test := name; passed := p; details := d |}.
Qed.

Lemma categories_append_names : forall (w : world) (r : results),
  (exists added,
      results_details (test_health_endpoints w r) = results_details r ++ added
      /\ map test added = ["Basic Health Check"; "Detailed Health Check"])
  /\ (exists added,
         results_details (test_authentication w r)
         = results_details r ++ added
         /\ map test added = ["Authentication Test"; "Token Debug Info"])
  /\ (exists added,
         results_details (test_pipelines w r) = results_details r ++ added
         /\ map test added = ["Pipeline List"; "Pipeline Debug Info"])
  /\ (exists added,
         results_details (snd (test_job_endpoints w r))
         = results_details r ++ added
         /\ map test added
            = ["Job List"; "Job Submission"]
              ++ (if truthy (fst (test_job_endpoints w r))
                  then ["Job Status Retrieval"] else []))
  /\ (exists added,
         results_details (test_missing_endpoints w r)
         = results_details r ++ added
         /\ map test added
            = ["SSE Endpoint Endpoint"; "Job Results Download Endpoint";
               "Job Artifacts Endpoint"; "Video Upload Endpoint"])
  /\ (exists added,
         results_details (test_debug_endpoints w r)
         = results_details r ++ added
         /\ map test added
            = ["Server Info Debug"; "Token Info Debug";
               "Pipeline Debug Debug"; "Request Log Debug"])
  /\ (exists added,
         results_details (test_sse_connection w r)
         = results_details r ++ added
         /\ map test added = ["SSE Connection"]).
Proof.
  intros w r.
  assert (Hstep : forall name c r0 prev,
             results_details r0 = results_details r ++ prev ->
             exists e,
               results_details (attempt name c r0)
               = results_details r ++ (prev ++ [e])
               /\ test e = name).
  { intros name c r0 prev H0.
    destruct (attempt_appends name c r0) as (e & He & Hn).
    exists e. now rewrite He, H0, app_assoc. }
  assert (H0 : results_details r = results_details r ++ [])
    by now rewrite app_nil_r.
  repeat split.
  - unfold test_health_endpoints.
    destruct (Hstep "Basic Health Check"%string
                (basic_health_check (get_health w)) r [] H0) as (e1 & H1 & N1).
    destruct (Hstep "Detailed Health Check"%string
                (detailed_health_check (get_system_health w)) _ _ H1)
      as (e2 & H2 & N2).
    eexists. split; [exact H2|]. cbn. now rewrite N1, N2.
  - unfold test_authentication.
    destruct (Hstep "Authentication Test"%string
                (authentication_test (get_jobs_auth w)) r [] H0)
      as (e1 & H1 & N1).
    destruct (Hstep "Token Debug Info"%string
                (token_debug_info (get_token_info w)) _ _ H1)
      as (e2 & H2 & N2).
    eexists. split; [exact H2|]. cbn. now rewrite N1, N2.
  - unfold test_pipelines.
    destruct (Hstep "Pipeline List"%string
                (pipeline_list (get_pipelines w)) r [] H0) as (e1 & H1 & N1).
    destruct (Hstep "Pipeline Debug Info"%string
                (pipeline_debug_info (get_debug_pipelines w)) _ _ H1)
      as (e2 & H2 & N2).
    eexists. split; [exact H2|]. cbn. now rewrite N1, N2.
  - unfold test_job_endpoints.
    destruct (Hstep "Job List"%string (job_list (get_jobs w)) r [] H0)
      as (e1 & H1 & N1).
    destruct (submission_outcome _) as [[p d] id]. cbn [fst snd].
    set (r2 := _log_result "Job Submission" p d _).
    assert (H2 : results_details r2
                 = results_details r
                   ++ ([] ++ [e1])
                   ++ [{| test := "Job Submission"; passed := p;
                          details := d |}]).
    { unfold r2. cbn [_log_result results_details]. rewrite H1.
      now rewrite <- app_assoc. }
    destruct (truthy id).
    + destruct (Hstep "Job Status Retrieval"%string
                  (job_status_retrieval (get_job w id)) r2 _ H2)
        as (e3 & H3 & N3).
      cbn [snd]. eexists. split; [exact H3|]. cbn. now rewrite N1, N3.
    + cbn [snd]. eexists. split; [exact H2|]. cbn. now rewrite N1.
  - unfold test_missing_endpoints, missing_endpoints. cbn [fold_left].
    destruct (Hstep ("SSE Endpoint" ++ " Endpoint")%string
                (missing_endpoint (get_missing w "/api/v1/events/stream"))
                r [] H0) as (e1 & H1 & N1).
    destruct (Hstep ("Job Results Download" ++ " Endpoint")%string
                (missing_endpoint (get_missing w "/api/v1/jobs/123/results"))
                _ _ H1) as (e2 & H2 & N2).
    destruct (Hstep ("Job Artifacts" ++ " Endpoint")%string
                (missing_endpoint (get_missing w "/api/v1/jobs/123/artifacts"))
                _ _ H2) as (e3 & H3 & N3).
    destruct (Hstep ("Video Upload" ++ " Endpoint")%string
                (missing_endpoint (get_missing w "/api/v1/videos"))
                _ _ H3) as (e4 & H4 & N4).
    eexists. split; [exact H4|]. cbn. now rewrite N1, N2, N3, N4.
  - unfold test_debug_endpoints, debug_endpoints. cbn [fold_left].
    destruct (Hstep ("Server Info" ++ " Debug")%string
                (debug_endpoint (get_debug w "/api/v1/debug/server-info"))
                r [] H0) as (e1 & H1 & N1).
    destruct (Hstep ("Token Info" ++ " Debug")%string
                (debug_endpoint (get_debug w "/api/v1/debug/token-info"))
                _ _ H1) as (e2 & H2 & N2).
    destruct (Hstep ("Pipeline Debug" ++ " Debug")%string
                (debug_endpoint (get_debug w "/api/v1/debug/pipelines"))
                _ _ H2) as (e3 & H3 & N3).
    destruct (Hstep ("Request Log" ++ " Debug")%string
                (debug_endpoint (get_debug w "/api/v1/debug/request-log"))
                _ _ H3) as (e4 & H4 & N4).
    eexists. split; [exact H4|]. cbn. now rewrite N1, N2, N3, N4.
  - unfold test_sse_connection. destruct (sse_connection _) as [p d].
    eexists. split; [reflexivity|]. reflexivity.
Qed.

(** X11. No category rewrites what was recorded before it: each appends
    its verdicts to the list, under these names and in this order. *)
Theorem categories_append : forall (w : world) (r : results),
  (exists added,
      results_details (test_health_endpoints w r) = results_details r ++ added
      /\ map test added = ["Basic Health Check"; "Detailed Health Check"])
  /\ (exists added,
         results_details (test_authentication w r)
         = results_details r ++ added
         /\ map test added = ["Authentication Test"; "Token Debug Info"])
  /\ (exists added,
         results_details (test_pipelines w r) = results_details r ++ added
         /\ map test added = ["Pipeline List"; "Pipeline Debug Info"])
  /\ (exists added,
         results_details (snd (test_job_endpoints w r))
         = results_details r ++ added
         /\ map test added
            = ["Job List"; "Job Submission"]
              ++ (if truthy (fst (test_job_endpoints w r))
                  then ["Job Status Retrieval"] else []))
  /\ (exists added,
         results_details (test_missing_endpoints w r)
         = results_details r ++ added
         /\ map test added
            = ["SSE Endpoint Endpoint"; "Job Results Download Endpoint";
               "Job Artifacts Endpoint"; "Video Upload Endpoint"])
  /\ (exists added,
         results_details (test_debug_endpoints w r)
         = results_details r ++ added
         /\ map test added
            = ["Server Info Debug"; "Token Info Debug";
               "Pipeline Debug Debug"; "Request Log Debug"])
  /\ (exists added,
         results_details (test_sse_connection w r)
         = results_details r ++ added
         /\ map test added = ["SSE Connection"]).
Proof. exact categories_append_names. Qed.

(** X12. The report of a run lists the tests in one fixed order, the
    status retrieval coming after the submission when, and only when, the
    submission yielded an id. *)
Theorem run_order : forall w : world,
  map test (results_details (run_all_tests w))
  = names_before_retrieval
    ++ (if truthy (snd (submission_outcome (job_submission (post_job w))))
        then ["Job Status Retrieval"] else [])
    ++ names_after_retrieval.
Proof.
  intro w. unfold run_all_tests.
  set (r1 := test_health_endpoints w init_results).
  set (r2 := test_authentication w r1).
  set (r3 := test_pipelines w r2).
  destruct (categories_append_names w init_results)
    as ((a1 & H1 & N1) & _).
  destruct (categories_append_names w r1) as (_ & (a2 & H2 & N2) & _).
  destruct (categories_append_names w r2) as (_ & _ & (a3 & H3 & N3) & _).
  destruct (categories_append_names w r3)
    as (_ & _ & _ & (a4 & H4 & N4) & _).
  rewrite test_job_endpoints_id in N4.
  fold r1 in H1. fold r2 in H2. fold r3 in H3.
  destruct (test_job_endpoints w r3) as [id r4]. cbn [snd] in H4.
  destruct (categories_append_names w r4)
    as (_ & _ & _ & _ & (a5 & H5 & N5) & _).
  set (r5 := test_missing_endpoints w r4) in *.
  destruct (categories_append_names w r5)
    as (_ & _ & _ & _ & _ & (a6 & H6 & N6) & _).
  set (r6 := test_debug_endpoints w r5) in *.
  destruct (categories_append_names w r6)
    as (_ & _ & _ & _ & _ & _ & (a7 & H7 & N7)).
  rewrite H7, H6, H5, H4, H3, H2, H1. cbn [init_results results_details].
  rewrite !map_app, N1, N2, N3, N4, N5, N6, N7.
  unfold names_before_retrieval, names_after_retrieval.
  cbn [app map]. rewrite <- !app_assoc. reflexivity.
Qed.

(** *** The two debug probes run on their own *)

Local Open Scope Z_scope.


(** *** The id a submission yields *)

Lemma submission_id r :
  truthy (snd (submission_outcome (job_submission r))) = true
  <-> exists m,
        r = Response 201 (Some (JObj m))
        /\ truthy (field (JObj m) "id" JNull) = true.
Proof.
  unfold job_submission. destruct r as [e|st b]; cbn.
  - split; [discriminate | intros (m & H & _); discriminate].
  - on_status st.
    + destruct b as [[| | | | |m]|]; cbn;
        try (split; [discriminate | intros (m' & H & _); discriminate]).
      split; [intro H; now exists m|].
      intros (m' & H & T). now injection H as <-.
    + cbn. split; [discriminate | intros (m & H & _); discriminate].
    + cbn. split; [discriminate | intros (m & H & _); discriminate].
    + cbn. split; [discriminate|]. intros (m & H & _).
      injection H as H _. contradiction.
Qed.

(** X14. [test_job_endpoints] returns an id, and runs the status
    retrieval, exactly when the submission is answered 201 with a JSON
    dict whose [id] is there and not empty, zero or null; the id it
    returns is that one, and the status retrieval asks for the job of
    that id. *)
Theorem job_id_dependency : forall (w : world) (r : results),
  (truthy (fst (test_job_endpoints w r)) = true
   <-> exists m,
         post_job w = Response 201 (Some (JObj m))
         /\ truthy (field (JObj m) "id" JNull) = true)
  /\ (forall m,
        post_job w = Response 201 (Some (JObj m)) ->
        fst (test_job_endpoints w r) = field (JObj m) "id" JNull)
  /\ (truthy (fst (test_job_endpoints w r)) = true ->
      exists prev,
        snd (test_job_endpoints w r)
        = attempt "Job Status Retrieval"
            (job_status_retrieval (get_job w (fst (test_job_endpoints w r))))
            prev)
  /\ (truthy (fst (test_job_endpoints w r)) = false ->
      fst (test_job_endpoints w r) = JNull
      \/ exists m, post_job w = Response 201 (Some (JObj m))).
Proof.
  intros w r. rewrite test_job_endpoints_id.
  split; [apply submission_id|].
  split; [intros m ->; reflexivity|].
  split.
  - unfold test_job_endpoints.
    destruct (submission_outcome _) as [[p d] id]. cbn [fst snd].
    intros ->. eauto.
  - unfold job_submission. destruct (post_job w) as [e|st b]; cbn;
      [now left|].
    on_status st; cbn; try (now left).
    destruct b as [[| | | | |m]|]; cbn; try (now left). intros _. eauto.
Qed.

Example job_id_of_live_world :
  fst (test_job_endpoints live_world init_results) = JStr "job-1".
Proof. reflexivity. Qed.

(** *** Reading the stream *)

Lemma str_take_length n (s : pystr) : (List.length (str_take n s) <= n)%nat.
Proof. unfold str_take. apply firstn_le_length. Qed.

Lemma read_events_first pre : forall line post broken,
  existsb is_data_line pre = false ->
  is_data_line line = true ->
  read_events (map StrLine (pre ++ line :: post)) broken
  = Ok (true, event_detail line).
Proof.
  induction pre as [|l pre IH]; intros line post broken Hpre Hline.
  - cbn [app map read_events]. fold (is_data_line line). now rewrite Hline.
  - cbn [existsb] in Hpre. apply orb_false_iff in Hpre.
    destruct Hpre as [Hl Hpre].
    cbn [app map read_events]. fold (is_data_line l). rewrite Hl.
    now apply IH.
Qed.

(** X15. On a 200 stream that is decoded to text the first data line
    decides: the probe passes with the text of that line (what follows
    "data:", stripped of white space on both sides, cut to fifty code
    points), whatever comes after it, be it more lines or a break of the
    stream. With no data line the probe fails, with "No events received"
    when the stream ends and "Stream error" when it breaks, also when what
    breaks it is a timeout. On a 200 stream whose lines arrive undecoded
    the probe fails in every case: with a type error at the first line
    that is not empty, and as a stream without data line when all lines
    are empty. *)
Theorem first_data_line_decides :
  forall (pre post : list pystr) (line : pystr) (broken : option exn),
  existsb is_data_line pre = false ->
  is_data_line line = true ->
  sse_connection (SseResponse 200 (Decoded (pre ++ line :: post)) broken)
  = (true,
     [Txt "Received SSE event: ";
      Txt (encode (str_take 50 (str_strip (str_drop 5 line)))); Txt "..."])
  /\ (List.length (str_take 50 (str_strip (str_drop 5 line))) <= 50)%nat
  /\ sse_connection (SseResponse 200 (Decoded pre) None)
     = (false, [Txt "No events received"])
  /\ (forall e,
        sse_connection (SseResponse 200 (Decoded pre) (Some e))
        = (false, [Txt "Stream error: "; Err e]))
  /\ (forall raw : list pybytes,
        sse_connection (SseResponse 200 (Undecoded raw) broken)
        = if existsb nonempty raw
          then (false, [Txt "Stream error: "; Err TypeError])
          else match broken with
               | Some e => (false, [Txt "Stream error: "; Err e])
               | None => (false, [Txt "No events received"])
               end).
Proof.
  intros pre post line broken Hpre Hline.
  cbn [sse_connection Z.eqb Pos.eqb iter_lines].
  rewrite (read_events_first pre line post broken Hpre Hline).
  split; [reflexivity|]. split; [apply str_take_length|].
  split; [|split].
  - now rewrite (read_events_no_data_line pre None Hpre).
  - intro e. now rewrite (read_events_no_data_line pre (Some e) Hpre).
  - intro raw. rewrite read_events_undecoded.
    now destruct (existsb nonempty raw), broken.
Qed.

Lemma first_data_line_sample :
  sse_connection
    (SseResponse 200
       (Decoded
          ([literal ""; literal ": ping"]
           ++ (literal "data:" ++ [160; 233; 8195]%N)
           :: [literal "data: late"])%list)
       (Some (Timeout "read timed out")))
  = (true,
     [Txt "Received SSE event: ";
      Txt (string_of_list_ascii (map ascii_of_nat [195; 169]%nat));
      Txt "..."]).
Proof.
  exact (proj1 (first_data_line_decides [literal ""; literal ": ping"]
                  [literal "data: late"] (literal "data:" ++ [160; 233; 8195]%N)
                  (Some (Timeout "read timed out")) eq_refl eq_refl)).
Defined.
End QuickTestSpec.

(** ** The failed-job diagnostics *)

Module DiagnoseSpec.
Import Diagnose.

(** *** Fetching *)

(** A fetch fails exactly when the request raises, the status is an HTTP
    error (400 to 599), or the body is not JSON. *)
Lemma fetch_response st b :
  fetch (Response st b)
  = if ((400 <=? st) && (st <? 600))%Z then Raise (HTTPError st)
    else match b with
         | Some v => Ok v
         | None => Raise JSONDecodeError
         end.
Proof.
  unfold fetch, raise_for_status; cbn.
  now destruct ((400 <=? st) && (st <? 600))%Z.
Qed.

Lemma fetch_raised e : fetch (Raised e) = Raise e.
Proof. reflexivity. Qed.

Lemma fetch_http_error st b :
  (400 <= st < 600)%Z -> fetch (Response st b) = Raise (HTTPError st).
Proof.
  intros [H1 H2]. rewrite fetch_response.
  apply Z.leb_le in H1. apply Z.ltb_lt in H2. now rewrite H1, H2.
Qed.

(** *** The shape of a run that writes the file *)

Lemma filterM_has_status wanted jobs l :
  filterM (has_status wanted) jobs = Ok l ->
  l = filter (fun job => py_in (status_of job) wanted) jobs
  /\ forallb is_dict jobs = true.
Proof.
  revert l. induction jobs as [|job jobs IH]; cbn; intros l H.
  - now injection H as <-.
  - destruct job as [| | | | |m]; try discriminate. cbn in H |- *.
    destruct (filterM (has_status wanted) jobs) as [rest|e]; [|discriminate].
    destruct (IH rest eq_refl) as [-> Hd]. cbn in H.
    injection H as <-. split; [|exact Hd].
    unfold status_of at 1. cbn. reflexivity.
Qed.

Lemma py_len_iter v n items :
  py_len v = Ok n -> py_iter v = Ok items -> n = List.length items.
Proof.
  destruct v; cbn; try discriminate; intros [= <-] [= <-].
  - induction s; cbn; congruence.
  - reflexivity.
  - now rewrite length_map.
Qed.

(** What one turn of the loop over the failed jobs appends and prints. *)
Lemma failed_job_inv w n i job info out :
  failed_job w n i job = Ok (info, out) ->
  is_dict job = true
  /\ job_id info = field job "id" JNull
  /\ status info = status_of job
  /\ details info = fst (get_job_details w i (field job "id" JNull))
  /\ resolve_error_message job (details info) = Ok (error_message info)
  /\ (truthy (error_message info) = false -> In no_message_notice out).
Proof.
  unfold failed_job, status_of.
  destruct job as [| | | | |m]; try discriminate. cbn [py_get bind field].
  destruct (get_job_details w i _) as [det printed] eqn:G. cbn [fst].
  destruct (resolve_error_message (JObj m) det) as [message|e] eqn:R;
    [|discriminate].
  cbn [bind pipelines error_message].
  match goal with
  | |- context [py_iter ?p] => destruct (truthy p)
  end.
  - match goal with
    | |- context [py_iter ?p] => destruct (py_iter p) as [items|e]
    end; [|discriminate].
    cbn [bind].
    destruct (py_join ", " items) as [joined|e]; [|discriminate].
    cbn [bind]. intros [= <- <-].
    cbn [job_id status details error_message].
    repeat split; try assumption.
    intros ->. cbn. do 4 right. apply in_or_app. right. now left.
  - cbn [bind]. intros [= <- <-].
    cbn [job_id status details error_message].
    repeat split; try assumption.
    intros ->. cbn. do 4 right. apply in_or_app. right. now left.
Qed.

Lemma analyze_loop_inv w n jobs : forall i infos out,
  analyze_loop w n i jobs = Ok (infos, out) ->
  List.length infos = List.length jobs
  /\ forall k job,
       nth_error jobs k = Some job ->
       exists info out',
         nth_error infos k = Some info
         /\ failed_job w n (i + k) job = Ok (info, out')
         /\ incl out' out.
Proof.
  induction jobs as [|job jobs IH]; intros i infos out; cbn [analyze_loop].
  - intros [= <- <-]. split; [reflexivity|]. intros [|k] ? H; discriminate.
  - destruct (failed_job w n i job) as [[info o]|e] eqn:F; [|discriminate].
    cbn [bind].
    destruct (analyze_loop w n (S i) jobs) as [[infos' outs]|e] eqn:L;
      [|discriminate].
    cbn [bind]. intros [= <- <-].
    destruct (IH _ _ _ L) as [Hlen Hnth].
    split; [cbn; now rewrite Hlen|].
    intros [|k] job' Hk; cbn in Hk.
    + injection Hk as <-. exists info, o. rewrite Nat.add_0_r.
      repeat split; [assumption|]. apply incl_appl, incl_refl.
    + destruct (Hnth k job' Hk) as (info' & o' & H1 & H2 & H3).
      exists info', o'. rewrite Nat.add_succ_r. cbn.
      repeat split; [assumption | assumption|]. now apply incl_appr.
Qed.

(** A run that reaches the status summary: both fetches returned a dict,
    the collection could be walked through and every job in it is a dict;
    the counts printed are those of the three filters. *)
Lemma analyze_summary_inv w o :
  analyze_failed_jobs w = Ok o ->
  o = CannotConnect \/ o = FailedToFetchJobs
  \/ exists jobs,
       truthy (get_server_health w) = true
       /\ truthy (get_all_jobs w) = true
       /\ job_collection w = Ok jobs
       /\ let counts :=
            {| total_jobs := List.length jobs;
               completed := count_status COMPLETED jobs;
               pending := count_status PENDING jobs;
               failed := count_status FAILED jobs |} in
          (o = NoFailedJobs counts /\ failing jobs = [])
          \/ exists d console,
               o = Saved d console
               /\ summary d = counts
               /\ failing jobs <> []
               /\ analyze_loop w (List.length (failing jobs)) 1 (failing jobs)
                  = Ok (failed_jobs d, console).
Proof.
  unfold analyze_failed_jobs, job_collection, failing, count_status.
  destruct (truthy (get_server_health w)) eqn:Th;
    [|intros [= <-]; now left].
  destruct (py_get (get_server_health w) "version" (JStr "Unknown"));
    [|discriminate].
  cbn [bind].
  destruct (py_get (get_server_health w) "status" (JStr "Unknown"));
    [|discriminate].
  cbn [bind].
  destruct (truthy (get_all_jobs w)) eqn:Tj;
    [|intros [= <-]; right; now left].
  cbn [negb].
  destruct (py_get (get_all_jobs w) "jobs" (JArr [])) as [jobs|e];
    [|discriminate].
  cbn [bind].
  destruct (py_len jobs) as [total|e] eqn:Hlen; [|discriminate].
  cbn [bind].
  destruct (py_iter jobs) as [items|e] eqn:Hit; [|discriminate].
  cbn [bind].
  pose proof (py_len_iter _ _ _ Hlen Hit) as ->.
  destruct (filterM (has_status FAILED) items) as [fl|e] eqn:F1;
    [|discriminate].
  cbn [bind].
  destruct (filterM (has_status COMPLETED) items) as [cl|e] eqn:F2;
    [|discriminate].
  cbn [bind].
  destruct (filterM (has_status PENDING) items) as [pl|e] eqn:F3;
    [|discriminate].
  cbn [bind].
  apply filterM_has_status in F1, F2, F3.
  destruct F1 as [-> _], F2 as [-> _], F3 as [-> _].
  intros H. right; right. exists items.
  repeat split; try reflexivity.
  destruct (filter (fun job => py_in (status_of job) FAILED) items)
    as [|j fl] eqn:Ef; cbn [truthy negb] in H.
  - left. injection H as <-. now split.
  - right.
    destruct (py_get (get_server_health w) "version" JNull) as [version|e];
      [|discriminate].
    cbn [bind] in H.
    destruct (py_get (get_server_health w) "status" JNull) as [st|e];
      [|discriminate].
    cbn [bind] in H.
    destruct (analyze_loop w _ 1 (j :: fl)) as [[infos console]|e] eqn:L;
      [|discriminate].
    cbn [bind] in H. injection H as <-.
    eexists _, console.
    split; [reflexivity|]. split; [reflexivity|].
    split; [discriminate | reflexivity].
Qed.

Lemma analyze_loop_ids w n jobs : forall i infos out,
  analyze_loop w n i jobs = Ok (infos, out) ->
  map job_id infos = map (fun job => field job "id" JNull) jobs
  /\ map status infos = map status_of jobs.
Proof.
  induction jobs as [|job jobs IH]; intros i infos out; cbn [analyze_loop].
  - intros [= <- <-]. now split.
  - destruct (failed_job w n i job) as [[info o]|e] eqn:F; [|discriminate].
    cbn [bind].
    destruct (analyze_loop w n (S i) jobs) as [[infos' outs]|e] eqn:L;
      [|discriminate].
    cbn [bind]. intros [= <- <-].
    destruct (IH _ _ _ L) as [H1 H2].
    destruct (failed_job_inv _ _ _ _ _ _ F) as (_ & Hid & Hst & _).
    cbn [map]. now rewrite Hid, Hst, H1, H2.
Qed.

Lemma fetch_fails_iff r :
  fetch_fails r
  <-> match r with
      | Raised _ => True
      | Response st b => (400 <= st < 600)%Z \/ b = None
      end.
Proof.
  unfold fetch_fails. destruct r as [e|st b].
  - split; [trivial | intros _; now exists e].
  - rewrite fetch_response.
    destruct ((400 <=? st) && (st <? 600))%Z eqn:E.
    + apply andb_prop in E. destruct E as [E1 E2].
      apply Z.leb_le in E1. apply Z.ltb_lt in E2.
      split; [intros _; left; lia | intros _; now exists (HTTPError st)].
    + assert (Hst : ~ (400 <= st < 600)%Z).
      { intros [E1 E2]. apply Z.leb_le in E1. apply Z.ltb_lt in E2.
        rewrite E1, E2 in E. discriminate. }
      destruct b as [v|].
      * split; [intros [? ?]; discriminate|].
        intros [?|?]; [contradiction | discriminate].
      * split; [intros _; now right | intros _; now exists JSONDecodeError].
Qed.

Lemma fetch_fails_none r : fetch_fails r -> or_none (fetch r) = JNull.
Proof. intros [e ->]. reflexivity. Qed.

Lemma or_none_truthy c : truthy (or_none c) = true -> exists v, c = Ok v.
Proof. destruct c; cbn; [eauto | discriminate]. Qed.

(** *** The fatal preconditions *)

(** C4, as the code has it. When the health fetch fails (the request
    raises, the status is an HTTP error, 400 to 599, such as 500, or the
    body is not JSON) the run stops at once with "Cannot connect to
    server"; when the fetch of the job collection fails no file is written
    either, the run stopping at "Failed to fetch jobs" if the health
    document is a non-empty dict. A file is written only after both
    fetches succeeded. *)
Theorem fatal_fetches_abort : forall w : world,
  (fetch_fails (get_health w) ->
   analyze_failed_jobs w = Ok CannotConnect)
  /\ (fetch_fails (get_jobs w) ->
      bundle_written (analyze_failed_jobs w) = None
      /\ (truthy (get_server_health w) = true ->
          is_dict (get_server_health w) = true ->
          analyze_failed_jobs w = Ok FailedToFetchJobs))
  /\ (forall d, bundle_written (analyze_failed_jobs w) = Some d ->
      exists health jobs,
        fetch (get_health w) = Ok health /\ fetch (get_jobs w) = Ok jobs)
  /\ (forall st b, get_health w = Response st b -> (400 <= st < 600)%Z ->
      fetch_fails (get_health w))
  /\ (forall e, get_health w = Raised e -> fetch_fails (get_health w)).
Proof.
  intro w.
  assert (Hwritten : forall d,
             bundle_written (analyze_failed_jobs w) = Some d ->
             truthy (get_server_health w) = true
             /\ truthy (get_all_jobs w) = true).
  { intros d H. unfold bundle_written in H.
    destruct (analyze_failed_jobs w) as [[| | |d' c]|e] eqn:A;
      try discriminate.
    destruct (analyze_summary_inv w _ A) as [?|[?|(jobs & Th & Tj & _)]];
      try discriminate.
    now split. }
  split.
  { intro Hf. unfold analyze_failed_jobs, get_server_health.
    now rewrite (fetch_fails_none _ Hf). }
  split.
  { intro Hf. split.
    - destruct (bundle_written (analyze_failed_jobs w)) as [d|] eqn:B;
        [|reflexivity].
      destruct (Hwritten d eq_refl) as [_ Tj].
      unfold get_all_jobs in Tj. rewrite (fetch_fails_none _ Hf) in Tj.
      discriminate.
    - intros Th Hd. unfold analyze_failed_jobs. rewrite Th.
      destruct (get_server_health w); try discriminate. cbn [py_get bind].
      unfold get_all_jobs. now rewrite (fetch_fails_none _ Hf). }
  split.
  { intros d B. destruct (Hwritten d B) as [Th Tj].
    apply or_none_truthy in Th, Tj.
    destruct Th as [h Hh], Tj as [j Hj]. now exists h, j. }
  split.
  - intros st b -> Hst. apply fetch_fails_iff. now left.
  - intros e ->. now apply fetch_fails_iff.
Qed.

(** The theorem at a server whose health endpoint answers 500. *)
Lemma health_500_aborts :
  fetch_fails (get_health server_error_world)
  /\ analyze_failed_jobs server_error_world = Ok CannotConnect
  /\ bundle_written (analyze_failed_jobs server_error_world) = None.
Proof.
  assert (H : fetch_fails (get_health server_error_world)).
  { apply (proj1 (proj2 (proj2 (proj2 (fatal_fetches_abort server_error_world))))
             500%Z None eq_refl).
    lia. }
  split; [exact H|].
  split; [exact (proj1 (fatal_fetches_abort server_error_world) H)|].
  reflexivity.
Defined.

(** C4, as stated, fails for a status that is not 2xx and no HTTP error:
    a health endpoint that answers 300 with a readable body is taken as
    healthy, and the run goes on to write the file. *)
Lemma health_300_does_not_abort :
  get_health multiple_choices_world
  = Response 300 (Some (JObj [("status", JStr "healthy")]))
  /\ ~ (200 <= 300 < 300)%Z
  /\ exists d,
       bundle_written (analyze_failed_jobs multiple_choices_world) = Some d.
Proof.
  split; [reflexivity|]. split; [lia|].
  eexists. vm_compute. reflexivity.
Qed.

(** The file written: its summary and its records, against the fetched
    collection. *)
Lemma saved_summary w d console :
  analyze_failed_jobs w = Ok (Saved d console) ->
  exists jobs,
    job_collection w = Ok jobs
    /\ summary d
       = {| total_jobs := List.length jobs;
            completed := count_status COMPLETED jobs;
            pending := count_status PENDING jobs;
            failed := count_status FAILED jobs |}
    /\ List.length (failed_jobs d) = List.length (failing jobs)
    /\ map job_id (failed_jobs d)
       = map (fun job => field job "id" JNull) (failing jobs)
    /\ map status (failed_jobs d) = map status_of (failing jobs).
Proof.
  intro A.
  destruct (analyze_summary_inv w _ A)
    as [?|[?|(jobs & _ & _ & Hj & [[? _]|(d' & c' & E & Hs & _ & L)])]];
    try discriminate.
  injection E as <- <-.
  destruct (analyze_loop_inv _ _ _ _ _ _ L) as [Hlen _].
  destruct (analyze_loop_ids _ _ _ _ _ _ L) as [Hid Hst].
  exists jobs. repeat split; assumption.
Qed.

(** *** The status histogram *)

(** C5. Whenever a run reaches the status summary, its counts are those
    of the fetched collection: a job counts as failed when its status is
    failed, error or cancelled, as completed when it is completed, as
    pending when it is pending or processing. In the file written, the
    failed count is the number of detail records, which are the failed
    jobs of the collection, one record each, in order. *)
Theorem histogram_counts_jobs : forall (w : world) (o : outcome),
  analyze_failed_jobs w = Ok o ->
  match o with
  | Saved d _ =>
      exists jobs,
        job_collection w = Ok jobs
        /\ summary d
           = {| total_jobs := List.length jobs;
                completed := count_status ["completed"] jobs;
                pending := count_status ["pending"; "processing"] jobs;
                failed := count_status ["failed"; "error"; "cancelled"] jobs |}
        /\ failed (summary d) = List.length (failed_jobs d)
        /\ map job_id (failed_jobs d)
           = map (fun job => field job "id" JNull) (failing jobs)
        /\ map status (failed_jobs d) = map status_of (failing jobs)
  | NoFailedJobs printed =>
      exists jobs,
        job_collection w = Ok jobs
        /\ printed
           = {| total_jobs := List.length jobs;
                completed := count_status ["completed"] jobs;
                pending := count_status ["pending"; "processing"] jobs;
                failed := 0 |}
  | CannotConnect | FailedToFetchJobs => True
  end.
Proof.
  intros w o A. destruct o as [| |printed|d console]; try exact I.
  - destruct (analyze_summary_inv w _ A)
      as [?|[?|(jobs & _ & _ & Hj & [[E Hf]|(d & c & ? & _)])]];
      try discriminate.
    injection E as ->. exists jobs. split; [exact Hj|].
    unfold count_status at 3. fold (failing jobs). now rewrite Hf.
  - destruct (saved_summary w d console A) as (jobs & Hj & Hs & Hlen & Hid & Hst).
    exists jobs. split; [exact Hj|]. split; [exact Hs|].
    rewrite Hs. cbn [failed]. now rewrite Hlen.
Qed.

(** The theorem on the sample collection: two completed jobs, one failed,
    one pending. *)
Lemma histogram_of_sample :
  exists d console,
    analyze_failed_jobs sample_world = Ok (Saved d console)
    /\ completed (summary d) = 2
    /\ pending (summary d) = 1
    /\ failed (summary d) = 1
    /\ List.length (failed_jobs d) = 1.
Proof.
  eexists _, _.
  match goal with
  | |- ?run = ?o /\ _ => assert (H : run = o) by (vm_compute; reflexivity)
  end.
  split; [exact H|].
  destruct (histogram_counts_jobs sample_world _ H)
    as (jobs & Hj & Hs & Hf & _).
  do 3 (split; [reflexivity|]).
  etransitivity; [symmetry; exact Hf | reflexivity].
Defined.

(** *** Unknown statuses *)

Lemma status_partition (jobs : list json) :
  count_status COMPLETED jobs + count_status PENDING jobs
  + count_status FAILED jobs + count_other jobs
  = List.length jobs.
Proof.
  unfold count_status, count_other, KNOWN, FAILED, COMPLETED, PENDING.
  cbn [app].
  induction jobs as [|job jobs IH]; [reflexivity|].
  cbn [filter].
  destruct (status_of job) as [| | |s| |];
    cbn [py_in negb List.length existsb app]; try lia.
  destruct (String.eqb s "completed") eqn:E1,
           (String.eqb s "pending") eqn:E2,
           (String.eqb s "processing") eqn:E3,
           (String.eqb s "failed") eqn:E4,
           (String.eqb s "error") eqn:E5,
           (String.eqb s "cancelled") eqn:E6;
    cbn [orb negb List.length]; try lia;
    repeat match goal with
           | H : String.eqb _ _ = true |- _ => apply String.eqb_eq in H
           end;
    congruence.
Qed.

Lemma unknown_in_no_bucket (job : json) :
  py_in (status_of job) KNOWN = false ->
  py_in (status_of job) FAILED = false
  /\ py_in (status_of job) COMPLETED = false
  /\ py_in (status_of job) PENDING = false.
Proof.
  unfold KNOWN. destruct (status_of job); cbn [py_in]; auto.
  rewrite !existsb_app, !orb_false_iff. tauto.
Qed.

Lemma count_other_positive jobs job :
  In job jobs -> py_in (status_of job) KNOWN = false -> 0 < count_other jobs.
Proof.
  intros Hin Hk. unfold count_other.
  assert (H : In job (filter (fun j => negb (py_in (status_of j) KNOWN)) jobs))
    by (apply filter_In; now rewrite Hk).
  destruct (filter _ jobs); [contradiction | cbn; lia].
Qed.

(** C10. In a file written, a job of the collection whose status is
    absent or none of failed, error, cancelled, completed, pending,
    processing is in none of the three counts and is not among the failed
    jobs the records are made from; the three counts and the number of
    such jobs add up to [total_jobs], so that the three counts fall short
    of [total_jobs] as soon as there is such a job. And there is a run in
    which they do. *)
Theorem unknown_status_in_no_bucket :
  (forall w d console,
      analyze_failed_jobs w = Ok (Saved d console) ->
      exists jobs,
        job_collection w = Ok jobs
        /\ total_jobs (summary d) = List.length jobs
        /\ completed (summary d) + pending (summary d) + failed (summary d)
           + count_other jobs
           = total_jobs (summary d)
        /\ List.length (failed_jobs d) = List.length (failing jobs)
        /\ (forall job,
              In job jobs -> py_in (status_of job) KNOWN = false ->
              py_in (status_of job) FAILED = false
              /\ py_in (status_of job) COMPLETED = false
              /\ py_in (status_of job) PENDING = false
              /\ ~ In job (failing jobs)
              /\ completed (summary d) + pending (summary d)
                 + failed (summary d)
                 < total_jobs (summary d)))
  /\ (exists w d console,
         analyze_failed_jobs w = Ok (Saved d console)
         /\ completed (summary d) + pending (summary d) + failed (summary d)
            < total_jobs (summary d)).
Proof.
  split.
  - intros w d console A.
    destruct (saved_summary w d console A) as (jobs & Hj & Hs & Hf & _).
    exists jobs. split; [exact Hj|].
    rewrite Hs. cbn [total_jobs completed pending failed].
    pose proof (status_partition jobs) as Hp.
    split; [reflexivity|]. split; [exact Hp|].
    split; [exact Hf|].
    intros job Hin Hk.
    destruct (unknown_in_no_bucket job Hk) as (H1 & H2 & H3).
    repeat split; try assumption.
    + unfold failing. rewrite filter_In, H1. intros [_ ?]. discriminate.
    + pose proof (count_other_positive jobs job Hin Hk). lia.
  - exists unknown_status_world. eexists _, _.
    split; [vm_compute; reflexivity|]. cbn. lia.
Qed.

(** The theorem on a collection of four jobs of which one has an unknown
    status and one has none: one completed, none pending, one failed. *)
Lemma unknown_status_sample :
  exists d console,
    analyze_failed_jobs unknown_status_world = Ok (Saved d console)
    /\ completed (summary d) = 1
    /\ pending (summary d) = 0
    /\ failed (summary d) = 1
    /\ total_jobs (summary d) = 4
    /\ List.length (failed_jobs d) = 1.
Proof.
  eexists _, _.
  match goal with
  | |- ?run = ?o /\ _ => assert (H : run = o) by (vm_compute; reflexivity)
  end.
  split; [exact H|].
  destruct (proj1 unknown_status_in_no_bucket unknown_status_world _ _ H)
    as (jobs & Hj & _ & _ & Hl & _).
  do 4 (split; [reflexivity|]).
  etransitivity; [exact Hl|].
  vm_compute in Hj. injection Hj as <-. reflexivity.
Defined.

(** *** The error message of a failed job *)

(** With a detail document at hand the message of the job comes first,
    that of the detail second. *)
Lemma resolve_error_message_with_details job det message :
  resolve_error_message job det = Ok message ->
  truthy det = true ->
  (truthy (field job "error_message" JNull) = true ->
   message = field job "error_message" JNull)
  /\ (truthy (field job "error_message" JNull) = false ->
      message = field det "error_message" JNull).
Proof.
  unfold resolve_error_message. intros H Td. rewrite Td in H.
  destruct job as [| | | | |m]; try discriminate. cbn [py_get bind field] in *.
  destruct (truthy (match lookup "error_message" m with
                    | Some v => v
                    | None => JNull
                    end)) eqn:T.
  - injection H as <-. split; [reflexivity | discriminate].
  - split; [discriminate|]. intros _.
    destruct det; try discriminate. cbn in H |- *. now injection H as <-.
Qed.

(** Without one (the detail request failed, or returned an empty
    document) the message is [None], whatever the job says. *)
Lemma resolve_error_message_without_details job det :
  truthy det = false -> resolve_error_message job det = Ok JNull.
Proof. unfold resolve_error_message. now intros ->. Qed.

(** C3, as the code has it. In a file written there is one record per
    failed job, in order, holding the detail document fetched for it. When
    that document is there (not empty), the message of the record is the
    message of the job if it has one, else the message of the detail
    document, [None] when that has none either: no marker is stored. A
    record whose message is empty or [None] has its notice, "No error
    message available", printed on the console. *)
Theorem error_message_resolution : forall w d console,
  analyze_failed_jobs w = Ok (Saved d console) ->
  exists jobs,
    job_collection w = Ok jobs
    /\ List.length (failed_jobs d) = List.length (failing jobs)
    /\ forall k job,
         nth_error (failing jobs) k = Some job ->
         exists info,
           nth_error (failed_jobs d) k = Some info
           /\ job_id info = field job "id" JNull
           /\ details info = fst (get_job_details w (S k) (job_id info))
           /\ (truthy (details info) = true ->
               (truthy (field job "error_message" JNull) = true ->
                error_message info = field job "error_message" JNull)
               /\ (truthy (field job "error_message" JNull) = false ->
                   error_message info
                   = field (details info) "error_message" JNull))
           /\ (truthy (error_message info) = false ->
               In no_message_notice console).
Proof.
  intros w d console A.
  destruct (analyze_summary_inv w _ A)
    as [?|[?|(jobs & _ & _ & Hj & [[? _]|(d' & c' & E & _ & _ & L)])]];
    try discriminate.
  injection E as <- <-.
  destruct (analyze_loop_inv _ _ _ _ _ _ L) as [Hlen Hnth].
  exists jobs. split; [exact Hj|]. split; [exact Hlen|].
  intros k job Hk.
  destruct (Hnth k job Hk) as (info & out & Hi & F & Hout).
  destruct (failed_job_inv _ _ _ _ _ _ F) as (_ & Hid & _ & Hd & Hr & Hn).
  exists info. split; [exact Hi|]. split; [exact Hid|].
  split; [now rewrite Hid|].
  split.
  - intro Td. exact (resolve_error_message_with_details _ _ _ Hr Td).
  - intro Tm. apply Hout, Hn, Tm.
Qed.

(** The theorem on the sample collection: the failed job has no message
    of its own, its detail says "OOM". *)
Lemma error_message_of_sample :
  exists d console,
    analyze_failed_jobs sample_world = Ok (Saved d console)
    /\ map error_message (failed_jobs d) = [JStr "OOM"]
    /\ exists jobs,
         job_collection sample_world = Ok jobs
         /\ List.length (failed_jobs d) = List.length (failing jobs).
Proof.
  eexists _, _.
  match goal with
  | |- ?run = ?o /\ _ => assert (H : run = o) by (vm_compute; reflexivity)
  end.
  split; [exact H|]. split; [reflexivity|].
  destruct (error_message_resolution sample_world _ _ H)
    as (jobs & Hj & Hl & _).
  exists jobs. now split.
Defined.

(** C3, as stated, fails: for a failed job with no message, in the list
    or in its detail, the record holds [None], not the marker. *)
Lemma no_message_record_holds_none :
  exists d console,
    analyze_failed_jobs no_message_world = Ok (Saved d console)
    /\ map error_message (failed_jobs d) = [JNull]
    /\ map error_message (failed_jobs d)
       <> [JStr "no error message available"].
Proof.
  eexists _, _. split; [vm_compute; reflexivity|].
  split; [reflexivity | discriminate].
Qed.

(** The message of the job is dropped when the detail request fails. *)
Example detail_down_drops_message :
  exists d console,
    analyze_failed_jobs detail_down_world = Ok (Saved d console)
    /\ map error_message (failed_jobs d) = [JNull]
    /\ map details (failed_jobs d) = [JNull].
Proof.
  eexists _, _. split; [vm_compute; reflexivity|]. now split.
Qed.

(** *** How a run ends, by the shape of what the server answers *)

(** X16. The run stops with "Cannot connect" when the health document is
    missing or empty, and with "Failed to fetch jobs" when the job
    document is; it ends with an exception, and writes nothing, when the
    health document or the job document is not a dict, when [jobs] has no
    length (it is null, a number, a boolean), and when an item of [jobs]
    is not a dict. *)
Theorem outcome_by_shape : forall w : world,
  (truthy (get_server_health w) = false ->
   analyze_failed_jobs w = Ok CannotConnect)
  /\ (truthy (get_server_health w) = true ->
      is_dict (get_server_health w) = false ->
      analyze_failed_jobs w = Raise AttributeError)
  /\ (truthy (get_server_health w) = true ->
      is_dict (get_server_health w) = true ->
      (truthy (get_all_jobs w) = false ->
       analyze_failed_jobs w = Ok FailedToFetchJobs)
      /\ (truthy (get_all_jobs w) = true ->
          is_dict (get_all_jobs w) = false ->
          analyze_failed_jobs w = Raise AttributeError)
      /\ (truthy (get_all_jobs w) = true ->
          is_dict (get_all_jobs w) = true ->
          forall jobs, jobs = field (get_all_jobs w) "jobs" (JArr []) ->
          (py_len jobs = Raise TypeError ->
           analyze_failed_jobs w = Raise TypeError)
          /\ (forall items,
                py_iter jobs = Ok items ->
                forallb is_dict items = false ->
                analyze_failed_jobs w = Raise AttributeError))).
Proof.
  intro w. unfold analyze_failed_jobs.
  split; [now intros ->|].
  split.
  { intros -> Hd. destruct (get_server_health w); try discriminate;
      reflexivity. }
  intros -> Hd.
  destruct (get_server_health w) as [| | | | |mh]; try discriminate.
  cbn [py_get bind].
  split; [now intros ->|].
  split.
  { intros -> Hj. destruct (get_all_jobs w); try discriminate; reflexivity. }
  intros -> Hj jobs Hjobs.
  destruct (get_all_jobs w) as [| | | | |mj]; try discriminate.
  cbn [field] in Hjobs. cbn [py_get bind negb]. rewrite <- Hjobs.
  split.
  - now intros ->.
  - intros items Hit Hnd.
    destruct (py_len jobs) as [total|e] eqn:Hlen;
      [|destruct jobs; discriminate].
    cbn [bind]. rewrite Hit. cbn [bind].
    destruct (filterM (has_status FAILED) items) as [fl|e] eqn:F.
    + apply filterM_has_status in F. destruct F as [_ F]. congruence.
    + cbn [bind].
      clear - F Hnd. revert e F.
      induction items as [|job items IH]; intros e F; [discriminate|].
      cbn in Hnd, F.
      destruct job; cbn in F; try (now injection F as <-).
      cbn in Hnd.
      destruct (filterM (has_status FAILED) items) as [rest|e'];
        [discriminate|].
      cbn in F. injection F as <-. now rewrite (IH Hnd e' eq_refl).
Qed.

Example jobs_null_raises :
  analyze_failed_jobs
    {| get_health := healthy;
       get_jobs := ok [("total", JNum 0); ("jobs", JNull)];
       get_job := fun _ _ => Response 404 None |}
  = Raise TypeError.
Proof. reflexivity. Qed.

(** *** When the file is written *)

(** X17. The file is written only when at least one job failed: a run
    over a collection with no failed job writes nothing, and a file
    written has at least one record and a failed count of at least one. *)
Theorem file_needs_a_failed_job : forall w : world,
  (forall jobs,
      job_collection w = Ok jobs -> failing jobs = [] ->
      bundle_written (analyze_failed_jobs w) = None)
  /\ (forall d,
        bundle_written (analyze_failed_jobs w) = Some d ->
        failed_jobs d <> [] /\ 0 < failed (summary d)).
Proof.
  intro w.
  assert (H : forall d c, analyze_failed_jobs w = Ok (Saved d c) ->
              exists jobs, job_collection w = Ok jobs /\ failing jobs <> []
                           /\ List.length (failed_jobs d)
                              = List.length (failing jobs)
                           /\ failed (summary d) = List.length (failing jobs)).
  { intros d c A.
    destruct (analyze_summary_inv w _ A)
      as [?|[?|(jobs & _ & _ & Hj & [[? _]|(d' & c' & E & Hs & Hne & L)])]];
      try discriminate.
    injection E as <- <-. exists jobs.
    destruct (analyze_loop_inv _ _ _ _ _ _ L) as [Hlen _].
    rewrite Hs. now repeat split. }
  split.
  - intros jobs Hj Hf. unfold bundle_written.
    destruct (analyze_failed_jobs w) as [[| | |d c]|e] eqn:A; try reflexivity.
    destruct (H d c eq_refl) as (jobs' & Hj' & Hne & _).
    rewrite Hj in Hj'. injection Hj' as <-. contradiction.
  - intros d B. unfold bundle_written in B.
    destruct (analyze_failed_jobs w) as [[| | |d' c]|e] eqn:A;
      try discriminate.
    injection B as ->.
    destruct (H d c eq_refl) as (jobs & _ & Hne & Hl & Hf).
    rewrite Hf. destruct (failing jobs); [contradiction|].
    split; [|cbn; lia].
    destruct (failed_jobs d); [discriminate | discriminate].
Qed.

Lemma file_of_sample_has_a_record :
  exists d,
    bundle_written (analyze_failed_jobs sample_world) = Some d
    /\ failed_jobs d <> [] /\ 0 < failed (summary d).
Proof.
  eexists.
  match goal with
  | |- ?run = ?o /\ _ => assert (H : run = o) by (vm_compute; reflexivity)
  end.
  split; [exact H|].
  exact (proj2 (file_needs_a_failed_job sample_world) _ H).
Defined.

(** *** One turn of the loop, in full *)

Lemma py_join_ok sep items :
  (exists s, py_join sep items = Ok s)
  <-> forallb (fun item => match item with JStr _ => true | _ => false end)
        items = true.
Proof.
  unfold py_join.
  assert (H : (exists strs, mapM as_str items = Ok strs)
              <-> forallb (fun item => match item with
                                       | JStr _ => true
                                       | _ => false
                                       end) items = true).
  { induction items as [|item items IH]; cbn.
    - split; eauto.
    - destruct item; cbn;
        try (split; [intros [? ?]; discriminate | discriminate]).
      destruct (mapM as_str items) as [strs|e]; cbn.
      + split; [intros _; apply IH; eauto | eauto].
      + split; [intros [? ?]; discriminate|].
        intro H. apply IH in H. destruct H; discriminate. }
  destruct (mapM as_str items) as [strs|e]; cbn.
  - split; [intros _; apply H; eauto | eauto].
  - split; [intros [? ?]; discriminate|].
    intro Hf. apply H in Hf. destruct Hf; discriminate.
Qed.

Lemma joined_ok v :
  (exists s, (items <- py_iter v ;; py_join ", " items) = Ok s)
  <-> joinable v = true.
Proof.
  unfold joinable. destruct (py_iter v) as [items|e]; cbn.
  - apply py_join_ok.
  - split; [intros [? ?]; discriminate | discriminate].
Qed.

(** What [failed_job] does with a job that is a dict: it raises what the
    resolution of the message raises, raises when the pipelines cannot be
    joined, and else appends the record made of the fields of the job. *)
Lemma failed_job_spec w n i m :
  let job := JObj m in
  let id := field job "id" JNull in
  let det := fst (get_job_details w i id) in
  let pipes := field job "pipelines" (JArr []) in
  match resolve_error_message job det with
  | Raise e => failed_job w n i job = Raise e
  | Ok message =>
      if truthy pipes && negb (joinable pipes)
      then exists e, failed_job w n i job = Raise e
      else exists out,
             failed_job w n i job
             = Ok ({| job_id := id;
                      status := field job "status" JNull;
                      created_at := field job "created_at" JNull;
                      updated_at := field job "updated_at" JNull;
                      video_filename := field job "video_filename" JNull;
                      pipelines := pipes;
                      error_message := message;
                      details := det |}, out)
             /\ In (job_header i n id) out
  end.
Proof.
  cbn zeta. unfold failed_job. cbn [py_get bind field].
  destruct (get_job_details w i _) as [det printed]. cbn [fst].
  destruct (resolve_error_message (JObj m) det) as [message|e];
    [|reflexivity].
  cbn [bind pipelines error_message].
  set (pipes := match lookup "pipelines" m with
                | Some x => x
                | None => JArr []
                end).
  pose proof (joined_ok pipes) as J.
  destruct (truthy pipes); cbn [andb].
  - destruct (items <- py_iter pipes ;; py_join ", " items)
      as [joined|e] eqn:E.
    + assert (Hj : joinable pipes = true) by (apply J; eauto).
      rewrite Hj. cbn [negb].
      destruct (py_iter pipes) as [items|e']; [|discriminate].
      cbn [bind] in E |- *. rewrite E. cbn [bind].
      eexists. split; [reflexivity|].
      destruct (truthy message); cbn; auto.
    + assert (Hj : joinable pipes = false).
      { destruct (joinable pipes); [|reflexivity].
        destruct (proj2 J eq_refl); discriminate. }
      rewrite Hj. cbn [negb].
      destruct (py_iter pipes) as [items|e']; cbn [bind] in E |- *.
      * rewrite E. cbn [bind]. eauto.
      * eauto.
  - cbn [bind]. eexists. split; [reflexivity|].
    destruct (truthy message); cbn; auto.
Qed.

Lemma failed_job_record w n i job info out :
  failed_job w n i job = Ok (info, out) ->
  job_id info = field job "id" JNull
  /\ status info = field job "status" JNull
  /\ created_at info = field job "created_at" JNull
  /\ updated_at info = field job "updated_at" JNull
  /\ video_filename info = field job "video_filename" JNull
  /\ pipelines info = field job "pipelines" (JArr [])
  /\ In (job_header i n (job_id info)) out
  /\ (truthy (pipelines info) = true -> joinable (pipelines info) = true).
Proof.
  intro F. destruct (failed_job_inv _ _ _ _ _ _ F) as (Hd & _).
  destruct job as [| | | | |m]; try discriminate.
  pose proof (failed_job_spec w n i m) as S. lazy zeta in S.
  destruct (resolve_error_message (JObj m) _) as [message|e];
    [|congruence].
  destruct (truthy (field (JObj m) "pipelines" (JArr []))
            && negb (joinable (field (JObj m) "pipelines" (JArr []))))
    eqn:C.
  - destruct S as [e S]. congruence.
  - destruct S as (out' & S & Hh). rewrite S in F. injection F as <- <-.
    cbn [job_id status created_at updated_at video_filename pipelines].
    repeat split; try assumption.
    intro T. cbn [field] in *. rewrite T in C. cbn [andb] in C.
    apply negb_false_iff in C. exact C.
Qed.

Lemma saved_server w d console :
  analyze_failed_jobs w = Ok (Saved d console) ->
  server d
  = {| server_url := API_BASE;
       server_version := field (get_server_health w) "version" JNull;
       server_status := field (get_server_health w) "status" JNull |}.
Proof.
  unfold analyze_failed_jobs.
  destruct (truthy (get_server_health w)); [|discriminate].
  destruct (get_server_health w) as [| | | | |mh]; try discriminate.
  cbn [py_get bind field].
  destruct (truthy (get_all_jobs w)); [|discriminate]. cbn [negb].
  destruct (py_get (get_all_jobs w) "jobs" (JArr [])) as [jobs|e];
    [|discriminate].
  cbn [bind].
  destruct (py_len jobs); [|discriminate]. cbn [bind].
  destruct (py_iter jobs) as [items|e]; [|discriminate]. cbn [bind].
  destruct (filterM (has_status FAILED) items) as [fl|e]; [|discriminate].
  cbn [bind].
  destruct (filterM (has_status COMPLETED) items); [|discriminate].
  cbn [bind].
  destruct (filterM (has_status PENDING) items); [|discriminate].
  cbn [bind].
  destruct (negb (truthy (JArr fl))); [discriminate|].
  destruct (analyze_loop w _ 1 fl) as [[infos c]|e]; [|discriminate].
  cbn [bind]. now intros [= <- _].
Qed.

(** *** What a record holds *)

(** X18. In the file written, the server entry holds the url and the
    [version] and [status] of the health document (null when absent), and
    the record of a failed job holds the [id], [status], [created_at],
    [updated_at], [video_filename] and [pipelines] of the job as listed
    (null when absent, the empty list for [pipelines]): the detail
    document only adds to a record, it replaces none of these. *)
Theorem records_copy_the_list : forall w d console,
  analyze_failed_jobs w = Ok (Saved d console) ->
  server d
  = {| server_url := "http://localhost:18011";
       server_version := field (get_server_health w) "version" JNull;
       server_status := field (get_server_health w) "status" JNull |}
  /\ exists jobs,
       job_collection w = Ok jobs
       /\ forall k job,
            nth_error (failing jobs) k = Some job ->
            exists info,
              nth_error (failed_jobs d) k = Some info
              /\ job_id info = field job "id" JNull
              /\ status info = field job "status" JNull
              /\ created_at info = field job "created_at" JNull
              /\ updated_at info = field job "updated_at" JNull
              /\ video_filename info = field job "video_filename" JNull
              /\ pipelines info = field job "pipelines" (JArr []).
Proof.
  intros w d console A. split; [exact (saved_server w d console A)|].
  destruct (analyze_summary_inv w _ A)
    as [?|[?|(jobs & _ & _ & Hj & [[? _]|(d' & c' & E & _ & _ & L)])]];
    try discriminate.
  injection E as <- <-.
  destruct (analyze_loop_inv _ _ _ _ _ _ L) as [_ Hnth].
  exists jobs. split; [exact Hj|]. intros k job Hk.
  destruct (Hnth k job Hk) as (info & out & Hi & F & _).
  destruct (failed_job_record _ _ _ _ _ _ F)
    as (H1 & H2 & H3 & H4 & H5 & H6 & _).
  exists info. repeat split; assumption.
Qed.

Lemma records_of_sample :
  exists d console,
    analyze_failed_jobs sample_world = Ok (Saved d console)
    /\ server_version (server d) = JStr "1.2.0"
    /\ map pipelines (failed_jobs d) = [JArr [JStr "person_tracking"]].
Proof.
  eexists _, _.
  match goal with
  | |- ?run = ?o /\ _ => assert (H : run = o) by (vm_compute; reflexivity)
  end.
  split; [exact H|].
  destruct (records_copy_the_list sample_world _ _ H) as [Hs _].
  split; [|reflexivity].
  etransitivity; [exact (f_equal server_version Hs) | reflexivity].
Defined.

(** *** Numbering on the console *)

(** X19. The console shows one header per record, "Failed Job i/n" with
    the id of the job, [i] counting the records from 1 and [n] being
    their number. *)
Theorem headers_number_the_jobs : forall w d console,
  analyze_failed_jobs w = Ok (Saved d console) ->
  forall k info,
    nth_error (failed_jobs d) k = Some info ->
    In [Txt "🔸 Failed Job "; Int (Z.of_nat (S k)); Txt "/";
        Int (Z.of_nat (List.length (failed_jobs d))); Txt ": ";
        Val (job_id info)]
       console.
Proof.
  intros w d console A k info Hk.
  destruct (analyze_summary_inv w _ A)
    as [?|[?|(jobs & _ & _ & Hj & [[? _]|(d' & c' & E & _ & _ & L)])]];
    try discriminate.
  injection E as <- <-.
  destruct (analyze_loop_inv _ _ _ _ _ _ L) as [Hlen Hnth].
  assert (Hlt : k < List.length (failing jobs)).
  { rewrite <- Hlen. apply nth_error_Some. congruence. }
  destruct (nth_error (failing jobs) k) as [job|] eqn:Hjob;
    [|apply nth_error_None in Hjob; lia].
  destruct (Hnth k job Hjob) as (info' & out & Hi & F & Hincl).
  rewrite Hk in Hi. injection Hi as <-.
  destruct (failed_job_record _ _ _ _ _ _ F) as (_ & _ & _ & _ & _ & _ & Hh & _).
  apply Hincl. rewrite Hlen. exact Hh.
Qed.

Lemma header_of_sample :
  exists d console,
    analyze_failed_jobs sample_world = Ok (Saved d console)
    /\ In [Txt "🔸 Failed Job "; Int 1; Txt "/"; Int 1; Txt ": ";
           Val (JStr "j3")] console.
Proof.
  eexists _, _.
  match goal with
  | |- ?run = ?o /\ _ => assert (H : run = o) by (vm_compute; reflexivity)
  end.
  split; [exact H|].
  exact (headers_number_the_jobs sample_world _ _ H 0 _ eq_refl).
Defined.

(** *** Detail requests that fail *)

Lemma get_job_details_fails w i id :
  fetch_fails (get_job w i id) -> fst (get_job_details w i id) = JNull.
Proof. unfold get_job_details. now intros [e ->]. Qed.

Lemma failed_job_degrades w w' n i job info out :
  (forall i id, fetch_fails (get_job w' i id)) ->
  failed_job w n i job = Ok (info, out) ->
  exists out', failed_job w' n i job = Ok (without_details info, out').
Proof.
  intros Hf F.
  destruct (failed_job_record _ _ _ _ _ _ F)
    as (H1 & H2 & H3 & H4 & H5 & H6 & _ & Hp).
  destruct (failed_job_inv _ _ _ _ _ _ F) as (Hd & _).
  destruct job as [| | | | |m]; try discriminate.
  pose proof (failed_job_spec w' n i m) as S. lazy zeta in S.
  rewrite (get_job_details_fails w' i _ (Hf i _)) in S.
  rewrite (resolve_error_message_without_details (JObj m) JNull eq_refl) in S.
  rewrite <- H6 in S.
  destruct (truthy (pipelines info)) eqn:T.
  - rewrite (Hp eq_refl) in S. cbn [andb negb] in S.
    destruct S as (out' & S & _). exists out'. rewrite S.
    unfold without_details. now rewrite H1, H2, H3, H4, H5.
  - cbn [andb] in S. destruct S as (out' & S & _). exists out'. rewrite S.
    unfold without_details. now rewrite H1, H2, H3, H4, H5.
Qed.

Lemma analyze_loop_degrades w w' n jobs :
  (forall i id, fetch_fails (get_job w' i id)) ->
  forall i infos out,
    analyze_loop w n i jobs = Ok (infos, out) ->
    exists out',
      analyze_loop w' n i jobs = Ok (map without_details infos, out').
Proof.
  intro Hf. induction jobs as [|job jobs IH]; intros i infos out;
    cbn [analyze_loop].
  - intros [= <- <-]. now exists [].
  - destruct (failed_job w n i job) as [[info o]|e] eqn:F; [|discriminate].
    cbn [bind].
    destruct (analyze_loop w n (S i) jobs) as [[infos' outs]|e] eqn:L;
      [|discriminate].
    cbn [bind]. intros [= <- <-].
    destruct (failed_job_degrades _ _ _ _ _ _ _ Hf F) as [o' ->].
    destruct (IH _ _ _ L) as [outs' ->]. cbn [bind map]. eauto.
Qed.

(** X20. Detail requests that fail never keep the file from being
    written: if a run writes the file, the run against a server that
    answers the health and job requests alike and fails every detail
    request writes it too, with the same server entry and summary and the
    same records but for their details and their error messages, which
    are null. *)
Theorem failed_details_degrade : forall w w' d console,
  get_health w' = get_health w ->
  get_jobs w' = get_jobs w ->
  (forall i id, fetch_fails (get_job w' i id)) ->
  analyze_failed_jobs w = Ok (Saved d console) ->
  exists console',
    analyze_failed_jobs w'
    = Ok (Saved {| server := server d; summary := summary d;
                   failed_jobs := map without_details (failed_jobs d) |}
            console').
Proof.
  intros w w' d console Hh Hj Hf.
  unfold analyze_failed_jobs, get_server_health, get_all_jobs.
  rewrite Hh, Hj.
  destruct (truthy (or_none (fetch (get_health w)))); [|discriminate].
  destruct (py_get (or_none (fetch (get_health w))) "version" (JStr "Unknown"));
    [|discriminate].
  cbn [bind].
  destruct (py_get (or_none (fetch (get_health w))) "status" (JStr "Unknown"));
    [|discriminate].
  cbn [bind].
  destruct (negb (truthy (or_none (fetch (get_jobs w))))); [discriminate|].
  destruct (py_get (or_none (fetch (get_jobs w))) "jobs" (JArr []))
    as [jobs|e]; [|discriminate].
  cbn [bind].
  destruct (py_len jobs); [|discriminate]. cbn [bind].
  destruct (py_iter jobs) as [items|e]; [|discriminate]. cbn [bind].
  destruct (filterM (has_status FAILED) items) as [fl|e]; [|discriminate].
  cbn [bind].
  destruct (filterM (has_status COMPLETED) items); [|discriminate].
  cbn [bind].
  destruct (filterM (has_status PENDING) items); [|discriminate].
  cbn [bind].
  destruct (negb (truthy (JArr fl))); [discriminate|].
  destruct (py_get (or_none (fetch (get_health w))) "version" JNull);
    [|discriminate].
  cbn [bind].
  destruct (py_get (or_none (fetch (get_health w))) "status" JNull);
    [|discriminate].
  cbn [bind].
  destruct (analyze_loop w (List.length fl) 1 fl) as [[infos c]|e] eqn:L;
    [|discriminate].
  cbn [bind]. intros [= <- <-].
  destruct (analyze_loop_degrades w w' _ _ Hf _ _ _ L) as [c' ->].
  cbn [bind server summary failed_jobs]. eauto.
Qed.

(** The theorem on the sample server, its detail endpoint answering 503. *)
Lemma sample_degrades :
  exists d console',
    analyze_failed_jobs sample_without_details = Ok (Saved d console')
    /\ map error_message (failed_jobs d) = [JNull]
    /\ map job_id (failed_jobs d) = [JStr "j3"]
    /\ summary d
       = {| total_jobs := 4; completed := 2; pending := 1; failed := 1 |}.
Proof.
  assert (H : exists d c, analyze_failed_jobs sample_world = Ok (Saved d c)
                          /\ map job_id (failed_jobs d) = [JStr "j3"]
                          /\ summary d
                             = {| total_jobs := 4; completed := 2;
                                  pending := 1; failed := 1 |}).
  { eexists _, _. split; [vm_compute; reflexivity|]. now split. }
  destruct H as (d & c & A & Hid & Hs).
  destruct (failed_details_degrade sample_world sample_without_details d c
              eq_refl eq_refl) as [c' A'].
  - intros i id. exists (HTTPError 503). reflexivity.
  - exact A.
  - eexists _, c'. split; [exact A'|]. cbn [failed_jobs summary].
    split; [|split; [|exact Hs]].
    + destruct (failed_jobs d) as [|i0 [|i1 l]]; try discriminate Hid.
      reflexivity.
    + rewrite map_map. exact Hid.
Defined.

(** *** Pipelines that cannot be joined *)

(** X21. The pipelines of a failed job are printed joined with ", ": a
    [pipelines] that is not empty and is no list of strings (a number, a
    list holding a non-string) makes that turn of the loop raise, so the
    run ends there and writes nothing. Hence in a file written every
    record's [pipelines] is empty or can be joined. *)
Theorem pipelines_must_join : forall w : world,
  (forall d,
      bundle_written (analyze_failed_jobs w) = Some d ->
      Forall (fun info =>
                truthy (pipelines info) = true ->
                joinable (pipelines info) = true)
        (failed_jobs d))
  /\ (forall n i m rest,
        truthy (field (JObj m) "pipelines" (JArr [])) = true ->
        joinable (field (JObj m) "pipelines" (JArr [])) = false ->
        exists e, analyze_loop w n i (JObj m :: rest) = Raise e).
Proof.
  intro w. split.
  - intros d B. unfold bundle_written in B.
    destruct (analyze_failed_jobs w) as [[| | |d' c]|e] eqn:A;
      try discriminate.
    injection B as ->.
    destruct (analyze_summary_inv w _ A)
      as [?|[?|(jobs & _ & _ & Hj & [[? _]|(d' & c' & E & _ & _ & L)])]];
      try discriminate.
    injection E as <- <-.
    destruct (analyze_loop_inv _ _ _ _ _ _ L) as [Hlen Hnth].
    apply Forall_forall. intros info Hin.
    apply In_nth_error in Hin. destruct Hin as [k Hk].
    assert (Hlt : k < List.length (failing jobs)).
    { rewrite <- Hlen. apply nth_error_Some. congruence. }
    destruct (nth_error (failing jobs) k) as [job|] eqn:Hjob;
      [|apply nth_error_None in Hjob; lia].
    destruct (Hnth k job Hjob) as (info' & out & Hi & F & _).
    rewrite Hk in Hi. injection Hi as <-.
    now destruct (failed_job_record _ _ _ _ _ _ F)
      as (_ & _ & _ & _ & _ & _ & _ & Hp).
  - intros n i m rest T J. cbn [analyze_loop].
    pose proof (failed_job_spec w n i m) as S. lazy zeta in S.
    rewrite T, J in S. cbn [andb negb] in S.
    destruct (resolve_error_message (JObj m) _) as [message|e].
    + destruct S as [e ->]. now exists e.
    + rewrite S. now exists e.
Qed.

Lemma pipelines_of_sample_join :
  exists d,
    bundle_written (analyze_failed_jobs sample_world) = Some d
    /\ Forall (fun info =>
                 truthy (pipelines info) = true ->
                 joinable (pipelines info) = true)
         (failed_jobs d).
Proof.
  eexists.
  match goal with
  | |- ?run = ?o /\ _ => assert (H : run = o) by (vm_compute; reflexivity)
  end.
  split; [exact H|].
  exact (proj1 (pipelines_must_join sample_world) _ H).
Defined.

Example number_as_pipelines_raises :
  analyze_failed_jobs bad_pipelines_world = Raise TypeError
  /\ bundle_written (analyze_failed_jobs bad_pipelines_world) = None.
Proof. split; reflexivity. Qed.
End DiagnoseSpec.
